(** * Skill snapshot manager: a shallow embedding of [scripts/snapshot_manager.py]

    The development follows the layout of the Python class
    [SkillSnapshotManager]: string helpers, the version-tag allocator, the
    file lock, the hash cache and change detector, and the mutating
    commands ([save], [restore], [delete_snapshot], [backup_all]) written in
    a small state-and-exception monad over an explicit world.

    Conventions of the embedding.
    - Strings are byte strings ([string] of [ascii]); times and sizes are
      integers ([Z]).
    - The filesystem is a pure value, so its operations do not raise on
      their own; a failing copy is injected through [copy_fault], an
      unreadable file and a failing [stat] are attributes of the file.
    - External commands ([git], [gh]) are answered by an oracle that sees the
      history of commands issued so far; every command completes (a command
      that times out ends the process in [_run_command] and is outside the
      model). Only [git pull] and [git checkout] change the working tree. *)

From Stdlib Require Import ZArith NArith Lia Ascii.
From Stdlib Require Import DecimalString DecimalN.
From stdpp Require Import base option list gmap strings.

Local Open Scope Z_scope.
Set Warnings "-register-all".

(** ** Python string primitives used by the script *)

Module PyStr.

(** [s.startswith(p)], returning the remainder after the prefix. *)
Fixpoint strip_prefix (p s : string) : option string :=
  match p, s with
  | EmptyString, _ => Some s
  | String a p', String b s' =>
      if Ascii.eqb a b then strip_prefix p' s' else None
  | String _ _, EmptyString => None
  end.

Definition startswith (s p : string) : bool :=
  match strip_prefix p s with Some _ => true | None => false end.

(** [sub in s] on strings. *)
Fixpoint contains (sub s : string) : bool :=
  startswith s sub ||
  match s with
  | EmptyString => false
  | String _ s' => contains sub s'
  end.

(** [s.endswith(p)]. *)
Definition endswith (s p : string) : bool :=
  startswith (String.rev s) (String.rev p).



(** [int(ds)] for a group matched by [\d+]: [None] when [ds] is empty or
    holds a character that is not a decimal digit. Leading zeros are accepted,
    as [int] accepts them. *)
Definition parse_digits (ds : string) : option N :=
  N.of_uint <$> NilZero.uint_of_string ds.

(** [str(n)], the decimal rendering used by the f-string [f"v{next_ver}"]. *)
Definition py_str (n : N) : string :=
  NilZero.string_of_uint (N.to_uint n).


(** [s.split(sep)]: the pieces between successive, non-overlapping
    occurrences of [sep], scanning left to right. [skip] counts the characters
    of a separator that has just been matched and [cur] holds the current
    piece, reversed. *)
Fixpoint split_go (sep s : string) (skip : nat) (cur : string) : list string :=
  match s with
  | EmptyString => [String.rev cur]
  | String c s' =>
      match skip with
      | S k => split_go sep s' k cur
      | O =>
          if startswith s sep
          then String.rev cur
                 :: split_go sep s' (String.length sep - 1) EmptyString
          else split_go sep s' O (String c cur)
      end
  end.

Definition split (s sep : string) : list string :=
  split_go sep s O EmptyString.

(** Characters removed by [s.strip()] (the ASCII part of [str.isspace]). *)
Definition is_space (c : ascii) : bool :=
  match c with
  | "009" | "010" | "011" | "012" | "013"
  | "028" | "029" | "030" | "031" | " " => true
  | _ => false
  end%char.

Fixpoint lstrip (s : string) : string :=
  match s with
  | EmptyString => EmptyString
  | String c s' => if is_space c then lstrip s' else s
  end.

Definition strip (s : string) : string :=
  String.rev (lstrip (String.rev (lstrip s))).

(** Line boundaries of [s.splitlines()] (ASCII part). *)
Definition is_linebreak (c : ascii) : bool :=
  match c with
  | "010" | "011" | "012" | "013" | "028" | "029" | "030" => true
  | _ => false
  end%char.

Fixpoint splitlines_go (s cur : string) (after_cr : bool) : list string :=
  match s with
  | EmptyString =>
      match cur with EmptyString => [] | _ => [String.rev cur] end
  | String c s' =>
      if is_linebreak c then
        if after_cr && Ascii.eqb c "010"
        then splitlines_go s' cur false
        else String.rev cur :: splitlines_go s' EmptyString (Ascii.eqb c "013")
      else splitlines_go s' (String c cur) false
  end.

Definition splitlines (s : string) : list string :=
  splitlines_go s EmptyString false.

(** [PurePath.suffix] of a file name: the part from the last dot, when that
    dot is neither the first nor the last character. *)
Fixpoint rfind_dot (s : string) : option nat :=
  match s with
  | EmptyString => None
  | String c s' =>
      match rfind_dot s' with
      | Some i => Some (S i)
      | None => if Ascii.eqb c "." then Some O else None
      end
  end.

Definition suffix (name : string) : string :=
  match rfind_dot name with
  | Some i =>
      if (0 <? i)%nat && (i <? String.length name - 1)%nat
      then String.substring i (String.length name - i) name
      else EmptyString
  | None => EmptyString
  end.

(** [PurePath.with_suffix], on the last component. *)
Definition with_suffix (name suf : string) : string :=
  String.substring 0 (String.length name - String.length (suffix name)) name
    +:+ suf.

End PyStr.


(** ** Version tags: allocation in [_save_impl] and resolution in [diff] *)

Module Tags.

(** [pattern.match(tag)] for
    [pattern = re.compile(rf"^{re.escape(skill_name)}/v(\d+)$")], followed by
    [int(match.group(1))]. The tags are lines produced by [splitlines], which
    hold no line terminator, so [$] matches at the end of the tag only. *)
Definition match_tag (skill_name tag : string) : option N :=
  rest ← PyStr.strip_prefix (skill_name +:+ "/v") tag;
  PyStr.parse_digits rest.

(** The loop of [_save_impl] over [existing_tags], started at [max_ver = 0]. *)
Definition max_ver_step (skill_name : string) (max_ver : N) (tag : string) : N :=
  match match_tag skill_name tag with
  | Some ver => if (max_ver <? ver)%N then ver else max_ver
  | None => max_ver
  end.

Definition max_ver (skill_name : string) (existing_tags : list string) : N :=
  fold_left (max_ver_step skill_name) existing_tags 0%N.

Definition next_ver (skill_name : string) (existing_tags : list string) : N :=
  (max_ver skill_name existing_tags + 1)%N.

(** [version_tag = f"v{next_ver}"] and [full_tag = f"{skill_name}/{version_tag}"]. *)
Definition version_tag (ver : N) : string := "v" +:+ PyStr.py_str ver.

Definition full_tag (skill_name : string) (ver : N) : string :=
  skill_name +:+ "/" +:+ version_tag ver.






(** [full_tag] of [diff], [_restore_impl]: a bare version gets the tree's
    name in front. *)
Definition qualify (skill_name version : string) : string :=
  if PyStr.startswith version (skill_name +:+ "/")
  then version
  else skill_name +:+ "/" +:+ version.


End Tags.

(** ** Directory trees *)

Module FS.

(** A regular file: its bytes when it can be opened for reading, and
    [(st_mtime, st_size)] when [stat] succeeds. *)
Record file := MkFile {
  f_data : option string;
  f_stat : option (Z * Z)
}.

Inductive node :=
  | File (f : file)
  | Dir (entries : list (string * node)).

(** [(d / name).exists()] for a directory listing. *)
Definition child (name : string) (entries : list (string * node)) : option node :=
  snd <$> find (λ e, String.eqb (fst e) name) entries.

(** The regular files met by [path.rglob("*")] filtered by [is_file()], each
    with its parts relative to [path]. *)
Fixpoint walk (n : node) : list (list string * file) :=
  match n with
  | File f => [([], f)]
  | Dir es =>
      (fix go (es : list (string * node)) : list (list string * file) :=
         match es with
         | [] => []
         | (name, c) :: es' =>
             map (λ pf, (name :: fst pf, snd pf)) (walk c) ++ go es'
         end) es
  end.

Definition rglob_files (n : node) : list (list string * file) :=
  match n with
  | File _ => []
  | Dir _ => walk n
  end.

(** [ignore_patterns] of [_save_impl], the [ignore] callback of
    [shutil.copytree]. *)
Definition ignore_list : list string :=
  [".git"; "__pycache__"; "node_modules"; ".venv"; ".DS_Store"; "__MACOSX";
   ".idea"; ".vscode"; "*.pyc"; "*.pyo"; "Thumbs.db"; ".pytest_cache"].

Definition ignored (name : string) : bool :=
  bool_decide (name ∈ ignore_list)
  || PyStr.endswith name ".pyc" || PyStr.endswith name ".pyo".

(** The tree that [copytree] writes under that callback: an ignored name is
    skipped with everything below it. *)
Fixpoint prune (n : node) : node :=
  match n with
  | File f => File f
  | Dir es =>
      Dir ((fix go (es : list (string * node)) : list (string * node) :=
              match es with
              | [] => []
              | (name, c) :: es' =>
                  if ignored name then go es' else (name, prune c) :: go es'
              end) es)
  end.

(** Outcome of a filesystem call that can raise. *)
Inductive result (A : Type) :=
  | Done (a : A)
  | Failed (msg : string).
Global Arguments Done {A} a.
Global Arguments Failed {A} msg.

(** [shutil.move(src, dst)] between two entries of one directory [d]. An
    existing directory [dst] receives [src] inside it, under the name of
    [src]; otherwise [src] is renamed to [dst], which fails over an existing
    file. *)
Definition move (src dst : string) (d : gmap string node)
  : result (gmap string node) :=
  match d !! src with
  | None => Failed "No such file or directory"
  | Some n =>
      if bool_decide (src = dst)
      then Failed "Cannot move a directory into itself"
      else
        match d !! dst with
        | None => Done (<[dst := n]> (delete src d))
        | Some (Dir es) =>
            match child src es with
            | Some _ => Failed "Destination path already exists"
            | None => Done (<[dst := Dir (es ++ [(src, n)])]> (delete src d))
            end
        | Some (File _) => Failed "Not a directory"
        end
  end.

(** [shutil.rmtree(path)] on an existing entry: a directory goes with its
    content, anything else raises. *)
Definition rmtree (name : string) (d : gmap string node)
  : result (gmap string node) :=
  match d !! name with
  | Some (Dir _) => Done (delete name d)
  | Some (File _) => Failed "Not a directory"
  | None => Failed "No such file or directory"
  end.

(** An injected copy failure: the error message and what was written at the
    destination before the failure, if anything. *)
Definition copy_fault : Type :=
  node → option (string * option (list (string * node))).

Inductive copy_result :=
  | Copied (n : node)
  | CopyFailed (msg : string) (partial : option node).

(** [shutil.copytree(src, dst, dirs_exist_ok=True)] towards a destination
    that does not exist yet; [ignore] selects the callback of [_save_impl]. *)
Definition copytree (fault : copy_fault) (ignore : bool) (src : node)
  : copy_result :=
  match src with
  | File _ => CopyFailed "Not a directory" None
  | Dir _ =>
      let content := if ignore then prune src else src in
      match fault content with
      | Some (msg, partial) => CopyFailed msg (Dir <$> partial)
      | None => Copied content
      end
  end.

End FS.

(** ** Hash cache and change detection *)

Module Cache.
Import FS.

Definition CACHE_VERSION : string := "1.0".

(** One value of the ["files"] mapping. A field is [None] when the key is
    missing from the JSON object, which is what [dict.get] returns then. *)
Record entry := MkEntry {
  e_hash : option string;
  e_mtime : option Z;
  e_size : option Z
}.

Global Instance entry_eq_dec : EqDecision entry.
Proof. solve_decision. Defined.

(** Content of [CACHE_DIR/<skill>.json]: text that [json.load] rejects, or an
    object with the fields [_save_cache] writes, each possibly missing. *)
Inductive cache_file :=
  | Unparsable
  | Json (cache_version : option string) (last_backup : option Z)
         (files : option (gmap string entry)).

(** The dictionary returned by [_load_cache]; [None] is the empty dictionary. *)
Record cache_data := MkData {
  d_last_backup : option Z;
  d_files : option (gmap string entry)
}.

Definition _load_cache (cache : gmap string cache_file) (skill_name : string)
  : option cache_data :=
  match cache !! skill_name with
  | None => None
  | Some Unparsable => None
  | Some (Json v lb files) =>
      if bool_decide (v = Some CACHE_VERSION)
      then Some (MkData lb files)
      else None
  end.

Definition _save_cache (skill_name : string) (data : cache_data)
    (cache : gmap string cache_file) : gmap string cache_file :=
  <[skill_name := Json (Some CACHE_VERSION) (d_last_backup data) (d_files data)]>
    cache.

(** [_compute_file_hash]: the SHA-256 digest of the bytes, and the empty
    string when the file cannot be opened or read. *)
Definition _compute_file_hash (sha256 : string → string) (f : file) : string :=
  match f_data f with
  | Some bytes => sha256 bytes
  | None => EmptyString
  end.

Definition ignore_names : list string :=
  [".git"; "__pycache__"; "node_modules"; ".venv"; ".DS_Store"; "__MACOSX";
   ".idea"; ".vscode"; ".pytest_cache"; "Thumbs.db"].

Definition file_name (parts : list string) : string := default EmptyString (last parts).

(** [_get_skill_files]: [path_parts] are the parts of [skill_path] itself,
    which [file_path.parts] contains too. *)
Definition keep_file (path_parts : list string) (pf : list string * file) : bool :=
  negb (existsb (λ part, bool_decide (part ∈ ignore_names))
          (path_parts ++ fst pf))
  && negb (bool_decide (PyStr.suffix (file_name (fst pf)) ∈ [".pyc"; ".pyo"])).

Definition _get_skill_files (path_parts : list string) (skill_path : option node)
  : list (list string * file) :=
  match skill_path with
  | None => []
  | Some n => filter (λ pf, keep_file path_parts pf = true) (rglob_files n)
  end.

(** [str(file_path.relative_to(skill_path)).replace("\\", "/")]. *)
Fixpoint join_parts (parts : list string) : string :=
  match parts with
  | [] => EmptyString
  | [p] => p
  | p :: rest => p +:+ "/" +:+ join_parts rest
  end.

Fixpoint backslash_to_slash (s : string) : string :=
  match s with
  | EmptyString => EmptyString
  | String c s' =>
      String (if Ascii.eqb c "\" then "/"%char else c) (backslash_to_slash s')
  end.

Definition rel_path (parts : list string) : string :=
  backslash_to_slash (join_parts parts).

Definition fresh_entry (sha256 : string → string) (f : file) (mtime size : Z)
  : entry :=
  MkEntry (Some (_compute_file_hash sha256 f)) (Some mtime) (Some size).

(** One iteration of the loop of [_compute_skill_hash_incremental]. *)
Definition hash_step (sha256 : string → string) (cached_files : gmap string entry)
    (new_hash_data : gmap string entry) (pf : list string * file)
  : gmap string entry :=
  let rel := rel_path (fst pf) in
  match f_stat (snd pf) with
  | None => new_hash_data
  | Some (mtime, size) =>
      match cached_files !! rel with
      | Some cached =>
          if bool_decide (e_mtime cached = Some mtime)
             && bool_decide (e_size cached = Some size)
          then <[rel := cached]> new_hash_data
          else <[rel := fresh_entry sha256 (snd pf) mtime size]> new_hash_data
      | None => <[rel := fresh_entry sha256 (snd pf) mtime size]> new_hash_data
      end
  end.

Definition _compute_skill_hash_incremental (sha256 : string → string)
    (files : list (list string * file)) (cache : option cache_data)
  : gmap string entry :=
  let cached_files := default ∅ (cache ≫= d_files) in
  fold_left (hash_step sha256 cached_files) files ∅.

(** The comparison that closes [_has_changes_fast]. *)
Definition hashes_differ (current_hashes cached_hashes : gmap string entry) : bool :=
  if negb (bool_decide (size current_hashes = size cached_hashes)) then true
  else if negb (bool_decide (dom current_hashes = dom cached_hashes)) then true
  else existsb
         (λ kv, negb (bool_decide
                        (e_hash (snd kv) = cached_hashes !! fst kv ≫= e_hash)))
         (map_to_list current_hashes).

(** [_has_changes_fast], on the snapshot directory [local_repo/<skill>], the
    cache directory and the files of the live tree. *)
Definition _has_changes_fast (sha256 : string → string)
    (snapshot_path : option node) (cache : gmap string cache_file)
    (skill_name : string) (files : list (list string * file)) : bool :=
  match snapshot_path with
  | None => true
  | Some _ =>
      match _load_cache cache skill_name with
      | None => true
      | Some data =>
          match d_files data with
          | None => true
          | Some cached_hashes =>
              hashes_differ
                (_compute_skill_hash_incremental sha256 files (Some data))
                cached_hashes
          end
      end
  end.

(** [_update_cache_after_save]: every fingerprint from scratch, stored with
    the time of the save. *)
Definition _update_cache_after_save (sha256 : string → string) (now : Z)
    (skill_name : string) (files : list (list string * file))
    (cache : gmap string cache_file) : gmap string cache_file :=
  let current_hashes := _compute_skill_hash_incremental sha256 files None in
  _save_cache skill_name (MkData (Some now) (Some current_hashes)) cache.


(** The file that decides the fingerprint stored under [p]: the last file
    of the listing with that relative path whose [stat] succeeds. *)
Fixpoint last_stat (p : string) (files : list (list string * file))
  : option (file * (Z * Z)) :=
  match files with
  | [] => None
  | pf :: rest =>
      match last_stat p rest with
      | Some r => Some r
      | None =>
          if bool_decide (rel_path (fst pf) = p)
          then (λ ms, (snd pf, ms)) <$> f_stat (snd pf)
          else None
      end
  end.

(** The entry [hash_step] stores for a file whose [stat] gave [(mtime, size)]. *)
Definition entry_for (sha256 : string → string) (cached_files : gmap string entry)
    (p : string) (f : file) (mtime size : Z) : entry :=
  match cached_files !! p with
  | Some cached =>
      if bool_decide (e_mtime cached = Some mtime)
         && bool_decide (e_size cached = Some size)
      then cached
      else fresh_entry sha256 f mtime size
  | None => fresh_entry sha256 f mtime size
  end.

(** Two files at the same relative path that fingerprint alike: [stat]
    succeeds for both or for neither, and the content hashes agree. *)
Definition same_fingerprint (sha256 : string → string)
    (pf pf' : list string * file) : Prop :=
  fst pf = fst pf' ∧
  (is_Some (f_stat (snd pf)) ↔ is_Some (f_stat (snd pf'))) ∧
  _compute_file_hash sha256 (snd pf) = _compute_file_hash sha256 (snd pf').

(** Two files at the same relative path that the incremental scan cannot
    tell apart: the same [stat] result, whatever the bytes, or the same
    content hash with [stat] succeeding for both or for neither. *)
Definition looks_unchanged (sha256 : string → string)
    (pf pf' : list string * file) : Prop :=
  fst pf = fst pf' ∧
  (f_stat (snd pf) = f_stat (snd pf') ∨
   ((is_Some (f_stat (snd pf)) ↔ is_Some (f_stat (snd pf'))) ∧
    _compute_file_hash sha256 (snd pf) = _compute_file_hash sha256 (snd pf'))).

(** The fast check run on [files'] right after the cache of the tree was
    rebuilt from [files], a snapshot directory being in place. *)
Definition check_after_update (sha256 : string → string) (skill_name : string)
    (snapshot : node) (now : Z) (cache : gmap string cache_file)
    (files files' : list (list string * file)) : bool :=
  _has_changes_fast sha256 (Some snapshot)
    (_update_cache_after_save sha256 now skill_name files cache)
    skill_name files'.

End Cache.

(** ** The world of one invocation, and the monad of the commands *)

Module Engine.
Import FS Cache.

Definition SELF_SKILL_NAME : string := "skill-snapshot".
Definition DEFAULT_BRANCH : string := "main".

(** The exceptions the script raises or lets through. *)
Inductive exn :=
  | SnapshotError (msg : string)
  | SkillNotFoundError (msg : string)
  | NetworkError (msg : string)
  | OSError (msg : string).

(** How a method ends: [return], an exception, or [sys.exit(code)]. *)
Inductive outcome (A : Type) :=
  | Return (a : A)
  | Raise (e : exn)
  | Exit (code : Z).
Global Arguments Return {A} a.
Global Arguments Raise {A} e.
Global Arguments Exit {A} code.

(** [subprocess.CompletedProcess], the fields the script reads. *)
Record response := MkResponse {
  returncode : Z;
  stdout : string
}.

(** The record written to [.snapshot.lock], with the modification time the
    filesystem gave the file. *)
Record lock_record := MkLock {
  lock_mtime : Z;
  lock_pid : Z;
  lock_written : Z
}.

(** What the script takes from outside its own text: library functions, the
    process, and the behaviour of the external commands. [respond] answers a
    command from the commands issued before it (most recent first) and the
    working tree; [respond_tree] is the working tree a [git pull] or
    [git checkout] leaves. *)
Record runtime := MkRuntime {
  sha256 : string → string;
  int_other : string → option Z;
  strftime : Z → string;
  getpid : Z;
  skills_dir_parts : list string;
  respond : list (list string) → list string → gmap string node → response;
  respond_tree :
    list (list string) → list string → gmap string node → gmap string node;
  fault : copy_fault
}.

(** [now] is [time.time()] in seconds; [skills_dir] lists [self.skills_dir]
    when it exists, [repo] lists [self.local_repo] (snapshot directories and
    [.git]); the lock file and the cache directory are kept apart from it. *)
Record world := MkWorld {
  rt : runtime;
  now : Z;
  lock_file : option lock_record;
  skills_dir : option (gmap string node);
  repo : gmap string node;
  cache : gmap string cache_file;
  log : list (list string)
}.

Definition set_now (t : Z) (w : world) : world :=
  MkWorld (rt w) t (lock_file w) (skills_dir w) (repo w) (cache w) (log w).
Definition set_lock_file (l : option lock_record) (w : world) : world :=
  MkWorld (rt w) (now w) l (skills_dir w) (repo w) (cache w) (log w).
Definition set_skills_dir (d : option (gmap string node)) (w : world) : world :=
  MkWorld (rt w) (now w) (lock_file w) d (repo w) (cache w) (log w).
Definition set_repo (r : gmap string node) (w : world) : world :=
  MkWorld (rt w) (now w) (lock_file w) (skills_dir w) r (cache w) (log w).
Definition set_cache (c : gmap string cache_file) (w : world) : world :=
  MkWorld (rt w) (now w) (lock_file w) (skills_dir w) (repo w) c (log w).
Definition set_log (l : list (list string)) (w : world) : world :=
  MkWorld (rt w) (now w) (lock_file w) (skills_dir w) (repo w) (cache w) l.

Definition M (A : Type) : Type := world → outcome A * world.

Global Instance M_ret : MRet M := λ A a w, (Return a, w).

Global Instance M_bind : MBind M := λ A B k m w,
  match m w with
  | (Return a, w') => k a w'
  | (Raise e, w') => (Raise e, w')
  | (Exit c, w') => (Exit c, w')
  end.

Definition raise {A : Type} (e : exn) : M A := λ w, (Raise e, w).
Definition sys_exit {A : Type} (code : Z) : M A := λ w, (Exit code, w).
Definition get : M world := λ w, (Return w, w).
Definition modify (f : world → world) : M unit := λ w, (Return tt, f w).

(** [try: body finally: fin]: [fin] runs however [body] ends, and the way
    [body] ended stands unless [fin] itself does not return. *)
Definition try_finally {A : Type} (body : M A) (fin : M unit) : M A := λ w,
  match body w with
  | (o, w1) =>
      match fin w1 with
      | (Return _, w2) => (o, w2)
      | (Raise e, w2) => (Raise e, w2)
      | (Exit c, w2) => (Exit c, w2)
      end
  end.

(** [self.skills_dir / skill_name], when it exists. *)
Definition skill_path (w : world) (skill_name : string) : option node :=
  skills_dir w ≫= (.!! skill_name).

Definition skill_files (w : world) (skill_name : string)
  : list (list string * file) :=
  _get_skill_files (skills_dir_parts (rt w) ++ [skill_name])
    (skill_path w skill_name).

(** [_run_command]: the command is issued, the backend answers. *)
Definition touches_worktree (cmd : list string) : bool :=
  match cmd with
  | "git" :: "pull" :: _ | "git" :: "checkout" :: _ => true
  | _ => false
  end.

(** A new working tree under the repository root: [.git] is not part of the
    working tree and stays as it is. *)
Definition checkout_tree (old new : gmap string node) : gmap string node :=
  match old !! ".git" with
  | Some g => <[".git" := g]> new
  | None => delete ".git" new
  end.

Definition _run_command (cmd : list string) : M response := λ w,
  let res := respond (rt w) (log w) cmd (repo w) in
  let tree :=
    if touches_worktree cmd
    then checkout_tree (repo w) (respond_tree (rt w) (log w) cmd (repo w))
    else repo w in
  (Return res, set_log (cmd :: log w) (set_repo tree w)).

Definition check_network : M bool :=
  res ← _run_command ["gh"; "api"; "user"; "-q"; ".login"];
  mret (bool_decide (returncode res = 0)
        && negb (bool_decide (PyStr.strip (stdout res) = EmptyString))).

(** [_acquire_lock] and [_release_lock]. *)
Definition _acquire_lock : M bool := λ w,
  let fresh := MkLock (now w) (getpid (rt w)) (now w) in
  match lock_file w with
  | Some l =>
      let lock_age := now w - lock_mtime l in
      if 600 <? lock_age
      then (Return true, set_lock_file (Some fresh) (set_lock_file None w))
      else (Return false, w)
  | None => (Return true, set_lock_file (Some fresh) w)
  end.

Definition _release_lock : M unit := λ w,
  match lock_file w with
  | Some _ => (Return tt, set_lock_file None w)
  | None => (Return tt, w)
  end.

Definition has_changes (w : world) (skill_name : string) : bool :=
  Cache._has_changes_fast (sha256 (rt w)) (repo w !! skill_name)
    (cache w) skill_name (skill_files w skill_name).

Definition _has_changes_fast (skill_name : string) : M bool := λ w,
  (Return (has_changes w skill_name), w).

Definition _update_cache_after_save (skill_name : string) : M unit := λ w,
  (Return tt,
   set_cache (Cache._update_cache_after_save (sha256 (rt w)) (now w) skill_name
                (skill_files w skill_name) (cache w)) w).

(** *** [save] *)

Definition sync_with_remote : M unit :=
  net ← check_network;
  if negb net
  then raise (NetworkError "No network connectivity. Cannot push to remote.")
  else
    _ ← _run_command ["git"; "pull"; "--quiet"; "origin"; DEFAULT_BRANCH];
    _ ← _run_command ["git"; "fetch"; "--tags"; "--quiet"];
    mret tt.

(** [if target_dir.exists(): shutil.rmtree(target_dir)] followed by
    [shutil.copytree(skill_path, target_dir, ignore=ignore_patterns, ...)]. *)
Definition stage_copy (skill_name : string) (source : node) : M unit := λ w,
  let cleaned :=
    match repo w !! skill_name with
    | Some _ => rmtree skill_name (repo w)
    | None => Done (repo w)
    end in
  match cleaned with
  | Failed msg => (Raise (OSError msg), w)
  | Done r =>
      match copytree (fault (rt w)) true source with
      | Copied n => (Return tt, set_repo (<[skill_name := n]> r) w)
      | CopyFailed msg partial =>
          (Raise (OSError msg),
           set_repo (match partial with
                     | Some n => <[skill_name := n]> r
                     | None => r
                     end) w)
      end
  end.

Definition default_message (w : world) : string :=
  "Snapshot at " +:+ strftime (rt w) (now w).

Definition _save_impl (skill_name : string) (message : option string)
    (sync_remote skip_fast_check : bool) : M bool :=
  w ← get;
  match skill_path w skill_name with
  | None => raise (SkillNotFoundError ("Skill '" +:+ skill_name +:+ "' not found"))
  | Some source =>
      if negb (bool_decide (is_Some (repo w !! ".git")))
      then raise (SnapshotError
                    "Snapshot repository not initialized. Run 'init' first.")
      else
        _ ← (if sync_remote then sync_with_remote else mret tt);
        changed ← (if skip_fast_check then mret true
                   else _has_changes_fast skill_name);
        if negb changed then mret false
        else
          res_tags ← _run_command ["git"; "tag"; "-l"; skill_name +:+ "/v*"];
          let existing_tags := PyStr.splitlines (PyStr.strip (stdout res_tags)) in
          let next_ver := Tags.next_ver skill_name existing_tags in
          let version_tag := Tags.version_tag next_ver in
          let full_tag := Tags.full_tag skill_name next_ver in
          let message :=
            match message with
            | Some m => if bool_decide (m = EmptyString) then default_message w else m
            | None => default_message w
            end in
          _ ← stage_copy skill_name source;
          _ ← _run_command ["git"; "add"; skill_name +:+ "/"];
          res_diff ← _run_command ["git"; "diff"; "--cached"; "--quiet"];
          if bool_decide (returncode res_diff = 0)
          then
            _ ← _update_cache_after_save skill_name;
            mret false
          else
            let commit_msg :=
              "[" +:+ skill_name +:+ "] " +:+ version_tag +:+ ": " +:+ message in
            res_commit ← _run_command ["git"; "commit"; "--quiet"; "-m"; commit_msg];
            if negb (bool_decide (returncode res_commit = 0))
            then raise (SnapshotError "Error committing changes.")
            else
              _ ← _run_command ["git"; "tag"; "-a"; full_tag; "-m"; message];
              _ ← _run_command ["git"; "push"; "--quiet"; "origin"; DEFAULT_BRANCH];
              _ ← _run_command ["git"; "push"; "--quiet"; "origin"; full_tag];
              _ ← _update_cache_after_save skill_name;
              mret true
  end.

Definition IN_PROGRESS : string :=
  "Another snapshot operation is in progress. Please wait.".

Definition save (skill_name : string) (message : option string)
    (sync_remote skip_fast_check : bool) : M bool :=
  if bool_decide (skill_name = SELF_SKILL_NAME)
  then raise (SnapshotError
                ("Cannot save '" +:+ SELF_SKILL_NAME
                   +:+ "' - self-modification is not allowed."))
  else
    locked ← _acquire_lock;
    if negb locked then raise (SnapshotError IN_PROGRESS)
    else
      try_finally
        (_save_impl skill_name message sync_remote skip_fast_check)
        _release_lock.

(** *** [restore] *)

Definition list_snapshots (skill_name : option string) : M unit :=
  w ← get;
  if negb (bool_decide (is_Some (repo w !! ".git"))) then sys_exit 1
  else
    _ ← _run_command ["git"; "fetch"; "--tags"; "--quiet"];
    let search_pattern :=
      match skill_name with
      | Some name =>
          if bool_decide (name = EmptyString) then "*/v*" else name +:+ "/v*"
      | None => "*/v*"
      end in
    _ ← _run_command
          ["git"; "tag"; "-l"; "-n1"; search_pattern; "--sort=-creatordate"];
    mret tt.

(** [dest.with_suffix(f".bak.{int(time.time())}")], as a name in the skills
    directory. *)
Definition backup_name (w : world) (skill_name : string) : string :=
  PyStr.with_suffix skill_name (".bak." +:+ PyStr.py_str (Z.to_N (now w))).

(** The block "Backup-Swap Strategy for Safe Restore": [Some name] is the
    backup made, [None] means there was nothing to back up. *)
Definition backup_live (skill_name : string) : M (option string) := λ w,
  match skill_path w skill_name with
  | Some _ =>
      let backup_path := backup_name w skill_name in
      match move skill_name backup_path (default ∅ (skills_dir w)) with
      | Done d => (Return (Some backup_path), set_skills_dir (Some d) w)
      | Failed _ => (Exit 1, w)
      end
  | None => (Return None, w)
  end.

(** The handler [except Exception as e] around the copy of [_restore_impl]:
    the partial destination goes, the backup comes back, [e] is raised again. *)
Definition rollback (skill_name : string) (backup_path : option string)
    (e : exn) : M unit := λ w,
  let d := default ∅ (skills_dir w) in
  let removed :=
    match d !! skill_name with
    | Some _ => rmtree skill_name d
    | None => Done d
    end in
  match removed with
  | Failed msg => (Raise (OSError msg), w)
  | Done d1 =>
      let w1 := set_skills_dir (Some d1) w in
      match backup_path with
      | Some b =>
          match d1 !! b with
          | Some _ =>
              match move b skill_name d1 with
              | Done d2 => (Raise e, set_skills_dir (Some d2) w)
              | Failed msg => (Raise (OSError msg), w1)
              end
          | None => (Raise e, w1)
          end
      | None => (Raise e, w1)
      end
  end.

(** [shutil.copytree(source, dest, dirs_exist_ok=True)] with its handler, and
    the removal of the backup after a successful copy. *)
Definition copy_into_place (skill_name : string) (source : node)
    (backup_path : option string) : M unit := λ w,
  let d := default ∅ (skills_dir w) in
  match copytree (fault (rt w)) false source with
  | Copied n =>
      let d1 := <[skill_name := n]> d in
      let d2 :=
        match backup_path with
        | Some b =>
            match d1 !! b with
            | Some _ =>
                match rmtree b d1 with
                | Done d2 => d2
                | Failed _ => d1
                end
            | None => d1
            end
        | None => d1
        end in
      (Return tt, set_skills_dir (Some d2) w)
  | CopyFailed msg partial =>
      let d1 :=
        match partial with
        | Some n => <[skill_name := n]> d
        | None => d
        end in
      rollback skill_name backup_path (OSError msg) (set_skills_dir (Some d1) w)
  end.

(** The backup, the copy and its handler, in the order of [_restore_impl]. *)
Definition swap_in (skill_name : string) (source : node) : M unit :=
  backup_path ← backup_live skill_name;
  copy_into_place skill_name source backup_path.

Definition _restore_impl (skill_name version : string) : M unit :=
  net ← check_network;
  if negb net then sys_exit 1
  else
    let full_tag := Tags.qualify skill_name version in
    try_finally
      (_ ← _run_command ["git"; "checkout"; DEFAULT_BRANCH; "--quiet"];
       _ ← _run_command ["git"; "pull"; "--quiet"];
       res_check ← _run_command ["git"; "rev-parse"; full_tag];
       if negb (bool_decide (returncode res_check = 0)) then sys_exit 1
       else
         _ ← _run_command ["git"; "checkout"; full_tag; "--quiet"];
         w ← get;
         match repo w !! skill_name with
         | None => sys_exit 1
         | Some source => swap_in skill_name source
         end)
      (_ ← _run_command ["git"; "checkout"; DEFAULT_BRANCH; "--quiet"]; mret tt).

Definition restore (skill_name : string) (version : option string) : M unit :=
  if bool_decide (skill_name = SELF_SKILL_NAME) then sys_exit 1
  else
    match version with
    | Some v =>
        if bool_decide (v = EmptyString) then list_snapshots (Some skill_name)
        else
          locked ← _acquire_lock;
          if negb locked then sys_exit 1
          else try_finally (_restore_impl skill_name v) _release_lock
    | None => list_snapshots (Some skill_name)
    end.

(** *** [delete_snapshot] *)

(** The part of [_delete_snapshot_impl] that follows the choice of
    [full_tag]. *)
Definition delete_full_tag (full_tag : string) : M unit :=
  res_check ← _run_command ["git"; "rev-parse"; full_tag];
  if negb (bool_decide (returncode res_check = 0)) then sys_exit 1
  else
    res ← _run_command ["git"; "tag"; "-d"; full_tag];
    if negb (bool_decide (returncode res = 0)) then sys_exit 1
    else
      _ ← _run_command ["git"; "push"; "origin"; "--delete"; full_tag];
      mret tt.

Definition _delete_snapshot_impl (skill_name version : string) : M unit :=
  net ← check_network;
  if negb net then sys_exit 1
  else
    if PyStr.startswith version (skill_name +:+ "/")
    then delete_full_tag version
    else if PyStr.contains "/" version then sys_exit 1
    else delete_full_tag (skill_name +:+ "/" +:+ version).

Definition delete_snapshot (skill_name version : string) : M unit :=
  if bool_decide (skill_name = SELF_SKILL_NAME) then sys_exit 1
  else
    locked ← _acquire_lock;
    if negb locked then sys_exit 1
    else try_finally (_delete_snapshot_impl skill_name version) _release_lock.

(** *** [backup_all] *)

(** The filter of the scan loop over [self.skills_dir.iterdir()]; the model
    has no symbolic links. *)
Definition is_skill (name : string) (n : node) : bool :=
  match n with
  | Dir es =>
      negb (PyStr.startswith name ".")
      && negb (bool_decide (name = "archive"))
      && bool_decide (is_Some (child "SKILL.md" es))
      && negb (bool_decide (name = SELF_SKILL_NAME))
  | File _ => false
  end.

Definition scan_skills (d : gmap string node) : list string :=
  fst <$> filter (λ kv, is_skill (fst kv) (snd kv) = true) (map_to_list d).

(** What the final summary prints, with the messages of the trees that
    failed. *)
Record summary := MkSummary {
  scanned : list string;
  had_changes : list string;
  failures : list (string * exn);
  success_count : nat
}.

(** The loop "Backup modified skills": an exception of one tree is printed
    and the loop goes on; [sys.exit] is not caught. *)
Fixpoint backup_loop (message : option string) (skills_to_backup : list string)
    (failures : list (string * exn)) (success_count : nat)
  : M (list (string * exn) * nat) := λ w,
  match skills_to_backup with
  | [] => (Return (failures, success_count), w)
  | skill :: rest =>
      match save skill message false true w with
      | (Return created, w') =>
          backup_loop message rest failures
            (if created then S success_count else success_count) w'
      | (Raise e, w') =>
          backup_loop message rest (failures ++ [(skill, e)]) success_count w'
      | (Exit c, w') => (Exit c, w')
      end
  end.

Definition backup_all_body (message : option string) : M (option summary) :=
  net ← check_network;
  if negb net then sys_exit 1
  else
    w ← get;
    match skills_dir w with
    | None => mret None
    | Some d =>
        _ ← (if bool_decide (is_Some (repo w !! ".git"))
             then
               _ ← _run_command ["git"; "pull"; "--quiet"; "origin"; DEFAULT_BRANCH];
               _ ← _run_command ["git"; "fetch"; "--tags"; "--quiet"];
               mret tt
             else mret tt);
        let skills := scan_skills d in
        match skills with
        | [] => mret None
        | _ =>
            w1 ← get;
            let skills_to_backup :=
              filter (λ skill, has_changes w1 skill = true) skills in
            match skills_to_backup with
            | [] => mret None
            | _ =>
                r ← backup_loop message skills_to_backup [] O;
                mret (Some (MkSummary skills skills_to_backup (fst r) (snd r)))
            end
        end
    end.

Definition backup_all (message : option string) : M (option summary) :=
  locked ← _acquire_lock;
  if negb locked then sys_exit 1
  else try_finally (backup_all_body message) _release_lock.

(** The commands that record a snapshot: [git commit] and [git tag -a]. *)
Definition creates_snapshot (cmd : list string) : bool :=
  match cmd with
  | "git" :: "commit" :: _ | "git" :: "tag" :: "-a" :: _ => true
  | _ => false
  end.

(** Nothing happens on the remote side: the network probe succeeds and a
    pull finds nothing to bring into the working tree. *)
Definition remote_quiet (w : world) : Prop :=
  ∀ history tree,
    returncode (respond (rt w) history ["gh"; "api"; "user"; "-q"; ".login"] tree)
    = 0 ∧
    PyStr.strip
      (stdout (respond (rt w) history ["gh"; "api"; "user"; "-q"; ".login"] tree))
    ≠ EmptyString ∧
    respond_tree (rt w) history
      ["git"; "pull"; "--quiet"; "origin"; DEFAULT_BRANCH] tree = tree.

(** The fingerprints [_update_cache_after_save] stores for a tree. *)
Definition fresh_fingerprints (w : world) (skill_name : string)
  : gmap string entry :=
  _compute_skill_hash_incremental (sha256 (rt w)) (skill_files w skill_name) None.

(** *** Cache maintenance: [rebuild_cache] and [clear_cache] *)

Fixpoint rebuild_each (skills : list string) : M unit :=
  match skills with
  | [] => mret tt
  | skill :: rest => _ ← _update_cache_after_save skill; rebuild_each rest
  end.

(** The branch "Rebuild cache for all skills": [iterdir] raises when the
    skills directory does not exist. *)
Definition rebuild_all : M unit :=
  w ← get;
  match skills_dir w with
  | None => raise (OSError "No such file or directory")
  | Some d => rebuild_each (scan_skills d)
  end.

Definition rebuild_cache (skill_name : option string) : M unit :=
  match skill_name with
  | Some name =>
      if bool_decide (name = EmptyString) then rebuild_all
      else
        w ← get;
        match skill_path w name with
        | None => sys_exit 1
        | Some _ => _update_cache_after_save name
        end
  | None => rebuild_all
  end.

Definition clear_cache (skill_name : option string) : M unit := λ w,
  match skill_name with
  | Some name =>
      if bool_decide (name = EmptyString) then (Return tt, set_cache ∅ w)
      else (Return tt, set_cache (delete name (cache w)) w)
  | None => (Return tt, set_cache ∅ w)
  end.

(** The commands that make a snapshot visible: [git tag -a] and [git push]. *)
Definition publishes (cmd : list string) : bool :=
  match cmd with
  | "git" :: "tag" :: "-a" :: _ | "git" :: "push" :: _ => true
  | _ => false
  end.

(** The tag a command deletes, locally or on the remote. *)
Definition deleted_tag (cmd : list string) : option string :=
  match cmd with
  | ["git"; "tag"; "-d"; t] => Some t
  | ["git"; "push"; "origin"; "--delete"; t] => Some t
  | _ => None
  end.

(** What [save] guarantees however it ends: the setting and the live trees
    are those of the call, a free lock is free again, the log has only
    grown; short of returning true it has published nothing, and short of
    returning at all it has left the cache alone. *)
Definition save_any_post (w : world) (out : outcome bool) (w1 : world) : Prop :=
  rt w1 = rt w ∧ now w1 = now w ∧ skills_dir w1 = skills_dir w ∧
  (lock_file w = None → lock_file w1 = None) ∧
  ∃ issued, log w1 = issued ++ log w ∧
            (out ≠ Return true → Forall (λ cmd, publishes cmd = false) issued) ∧
            ((∀ b, out ≠ Return b) → cache w1 = cache w).

(** [w1] comes from [w] by issuing the commands [issued] (most recent
    first) and by changes to the repository and the cache only; an
    initialised repository stays initialised. *)
Definition evolves (w w1 : world) (issued : list (list string)) : Prop :=
  rt w1 = rt w ∧ now w1 = now w ∧ lock_file w1 = lock_file w ∧
  skills_dir w1 = skills_dir w ∧ log w1 = issued ++ log w ∧
  (is_Some (repo w !! ".git") → is_Some (repo w1 !! ".git")).

(** What a [save] that returned [created] has left of the world [w] it was
    called in: the lock is free, the tree and the repository are there, the
    fast check finds no change; and when no snapshot was created, no commit
    or tag command was issued and the cache is either untouched (the fast
    check stopped the save) or holds the fingerprints of the tree. *)
Definition save_post (w w1 : world) (skill_name : string)
    (skip_fast_check created : bool) : Prop :=
  skill_name ≠ SELF_SKILL_NAME ∧ lock_file w1 = None ∧ rt w1 = rt w ∧
  skills_dir w1 = skills_dir w ∧ is_Some (skill_path w skill_name) ∧
  is_Some (repo w1 !! ".git") ∧ has_changes w1 skill_name = false ∧
  (created = false →
   (∃ issued, log w1 = issued ++ log w ∧
              Forall (λ cmd, creates_snapshot cmd = false) issued) ∧
   ((skip_fast_check = false ∧ cache w1 = cache w) ∨
    cache w1 !! skill_name
    = Some (Json (Some CACHE_VERSION) (Some (now w))
              (Some (fresh_fingerprints w skill_name))))).


End Engine.

(** ** Sample worlds *)

Module Samples.
Import FS Cache Engine.

Definition skill_md (text : string) (mtime : Z) : node :=
  File (MkFile (Some text) (Some (mtime, Z.of_nat (String.length text)))).

Definition alpha_tree : node := Dir [("SKILL.md", skill_md "v1" 100)].

Definition alpha_snapshot : node := Dir [("SKILL.md", skill_md "v0" 50)].

(** A backend in which every command succeeds with the same output; [diff_rc]
    is the exit status of [git diff --cached --quiet]. *)
Definition steady (diff_rc : Z) (history : list (list string))
    (cmd : list string) (tree : gmap string node) : response :=
  match cmd with
  | "git" :: "diff" :: _ => MkResponse diff_rc EmptyString
  | "git" :: "tag" :: "-l" :: _ => MkResponse 0 EmptyString
  | _ => MkResponse 0 "octocat"
  end.

Definition keep_tree (history : list (list string)) (cmd : list string)
    (tree : gmap string node) : gmap string node := tree.

Definition no_fault : copy_fault := λ _, None.


Definition sample_rt (diff_rc : Z) (f : copy_fault) : runtime :=
  MkRuntime (λ bytes, "sha256:" +:+ bytes) (λ _, None) (λ _, "2026-01-01 00:00")
    4242 ["home"; "skills"] (steady diff_rc) keep_tree f.

(** One tree [alpha], an initialised repository, no lock, no cache. *)
Definition w_first_save : world :=
  MkWorld (sample_rt 1 no_fault) 1000 None
    (Some {["alpha" := alpha_tree]})
    {[".git" := Dir []]} ∅ [].



(** The first world after [save alpha "msg"]. *)
Definition w_saved : world :=
  snd (save "alpha" (Some "msg") true false w_first_save).

(** A backend that finds staged changes and then fails to commit them. *)
Definition commit_fails (history : list (list string)) (cmd : list string)
    (tree : gmap string node) : response :=
  match cmd with
  | "git" :: "diff" :: _ => MkResponse 1 EmptyString
  | "git" :: "commit" :: _ => MkResponse 1 EmptyString
  | "git" :: "tag" :: "-l" :: _ => MkResponse 0 EmptyString
  | _ => MkResponse 0 "octocat"
  end.

Definition w_commit_fails : world :=
  MkWorld
    (MkRuntime (λ bytes, "sha256:" +:+ bytes) (λ _, None)
       (λ _, "2026-01-01 00:00") 4242 ["home"; "skills"] commit_fails keep_tree
       no_fault)
    1000 None (Some {["alpha" := alpha_tree]}) {[".git" := Dir []]} ∅ [].

(** A backend that commits, and whose [git tag -a] and [git push] fail. *)
Definition push_fails (history : list (list string)) (cmd : list string)
    (tree : gmap string node) : response :=
  match cmd with
  | "git" :: "diff" :: _ => MkResponse 1 EmptyString
  | "git" :: "tag" :: "-a" :: _ => MkResponse 128 EmptyString
  | "git" :: "push" :: _ => MkResponse 1 EmptyString
  | "git" :: "tag" :: "-l" :: _ => MkResponse 0 "alpha/v2"
  | _ => MkResponse 0 "octocat"
  end.

Definition w_push_fails : world :=
  MkWorld
    (MkRuntime (λ bytes, "sha256:" +:+ bytes) (λ _, None)
       (λ _, "2026-01-01 00:00") 4242 ["home"; "skills"] push_fails keep_tree
       no_fault)
    1000 None (Some {["alpha" := alpha_tree]}) {[".git" := Dir []]} ∅ [].

(** The world of [w_restore] with the skills directory kept below a
    directory called [.venv]. *)
Definition w_venv (live : node) : world :=
  MkWorld
    (MkRuntime (λ bytes, "sha256:" +:+ bytes) (λ _, None)
       (λ _, "2026-01-01 00:00") 4242 ["home"; ".venv"; "skills"] (steady 1)
       keep_tree no_fault)
    1000 None (Some {["alpha" := live]})
    {[".git" := Dir []; "alpha" := alpha_snapshot]} ∅ [].

(** A tree with a compiled file in a cache directory. *)
Definition beta_tree : node :=
  Dir [("SKILL.md", skill_md "v1" 100);
       ("__pycache__", Dir [("tool.pyc", skill_md "bytes" 100)]);
       ("lib", Dir [("tool.py", skill_md "code" 100)])].

(** The first world with a lock file last written at [mtime]. *)
Definition w_locked (mtime : Z) : world :=
  set_lock_file (Some (MkLock mtime 7 mtime)) w_first_save.

End Samples.

(** * Properties *)

(** ** Strings and decimal numerals *)

Section strings.
Import PyStr.


Lemma str_app_cons (a : ascii) (s t : string) :
  String a s +:+ t = String a (s +:+ t).
Proof. reflexivity. Qed.


Lemma str_app_assoc (a b c : string) : (a +:+ b) +:+ c = a +:+ b +:+ c.
Proof.
  induction a as [|x a IH]; [done|]. by rewrite !str_app_cons, IH.
Qed.

Lemma strip_prefix_app (p rest : string) : strip_prefix p (p +:+ rest) = Some rest.
Proof.
  induction p as [|a p IH]; [done|].
  rewrite str_app_cons. simpl. by rewrite Ascii.eqb_refl.
Qed.





End strings.

(** ** The version allocator *)

Section tags.
Import PyStr Tags.







End tags.

Section allocator.
Import PyStr Tags.


End allocator.

(** ** The latest tag chosen by [diff] *)

Section latest.
Import PyStr Tags.
#[local] Arguments Ascii.eqb : simpl never.













End latest.

(** ** The lock, the self-protection guard, the cache states *)

Section guards.
Import FS Cache Engine Samples.

(** C6. With a lock file present, [_acquire_lock] returns false and changes
    nothing when the file is younger than 600 seconds, and returns true when
    it is older, the lock file then holding the new record of process id and
    time: a lock 700 seconds old is reclaimed, one 60 seconds old is not. *)
Theorem acquire_lock_by_age (w : world) (l : lock_record) :
  lock_file w = Some l →
  (now w - lock_mtime l < 600 → _acquire_lock w = (Return false, w)) ∧
  (600 < now w - lock_mtime l →
   _acquire_lock w
   = (Return true,
      set_lock_file (Some (MkLock (now w) (getpid (rt w)) (now w))) w)) ∧
  (lock_mtime l = now w - 700 → fst (_acquire_lock w) = Return true) ∧
  (lock_mtime l = now w - 60 → fst (_acquire_lock w) = Return false).
Proof.
  intros Hl. unfold _acquire_lock. rewrite Hl.
  repeat split; intros H.
  - by rewrite (proj2 (Z.ltb_ge _ _)) by lia.
  - by rewrite (proj2 (Z.ltb_lt _ _)) by lia.
  - by rewrite (proj2 (Z.ltb_lt _ _)) by lia.
  - by rewrite (proj2 (Z.ltb_ge _ _)) by lia.
Qed.

Lemma acquire_lock_by_age_witness :
  lock_file (w_locked 300) = Some (MkLock 300 7 300) ∧
  _acquire_lock (w_locked 300)
  = (Return true, set_lock_file (Some (MkLock 1000 4242 1000)) (w_locked 300)).
Proof.
  split; [reflexivity|].
  apply (acquire_lock_by_age (w_locked 300) (MkLock 300 7 300)); [reflexivity|].
  simpl. lia.
Defined.

(** C7. [save], [restore] and [delete_snapshot] called with the reserved name
    end at once with an error, in the world they were called in: no lock
    taken, no command issued, no tree, tag or cache touched. *)
Theorem self_name_rejected (w : world) (message : option string)
    (sync_remote skip_fast_check : bool) (version : option string)
    (version' : string) :
  (∃ msg, save SELF_SKILL_NAME message sync_remote skip_fast_check w
          = (Raise (SnapshotError msg), w)) ∧
  restore SELF_SKILL_NAME version w = (Exit 1, w) ∧
  delete_snapshot SELF_SKILL_NAME version' w = (Exit 1, w).
Proof.
  split; [|split].
  - eexists. reflexivity.
  - reflexivity.
  - reflexivity.
Qed.



End guards.

(** ** Fingerprints *)

Section fingerprints.
Import FS Cache.
Context (sha256 : string → string).

Lemma hash_step_lookup (cached_files new_hash_data : gmap string entry)
    (pf : list string * file) (p : string) :
  hash_step sha256 cached_files new_hash_data pf !! p
  = if bool_decide (rel_path (fst pf) = p)
    then match f_stat (snd pf) with
         | Some (m, s) => Some (entry_for sha256 cached_files p (snd pf) m s)
         | None => new_hash_data !! p
         end
    else new_hash_data !! p.
Proof.
  unfold hash_step, entry_for.
  destruct (f_stat (snd pf)) as [[m s]|]; [|by case_bool_decide].
  case_bool_decide as Hp.
  - subst p. destruct (cached_files !! rel_path (fst pf)) as [c|];
      [destruct (_ && _)|]; by rewrite lookup_insert_eq.
  - destruct (cached_files !! rel_path (fst pf)) as [c|];
      [destruct (_ && _)|]; by rewrite lookup_insert_ne.
Qed.

Lemma hash_fold_lookup (cached_files : gmap string entry)
    (files : list (list string * file)) (acc : gmap string entry) (p : string) :
  fold_left (hash_step sha256 cached_files) files acc !! p
  = match last_stat p files with
    | Some (f, (m, s)) => Some (entry_for sha256 cached_files p f m s)
    | None => acc !! p
    end.
Proof.
  revert acc. induction files as [|pf files IH]; intros acc; simpl; [done|].
  rewrite IH. destruct (last_stat p files) as [[f [m s]]|]; [done|].
  rewrite hash_step_lookup. case_bool_decide; [|done].
  by destruct (f_stat (snd pf)) as [[m s]|].
Qed.

Lemma last_stat_related (files files' : list (list string * file)) (p : string) :
  Forall2 (same_fingerprint sha256) files files' →
  match last_stat p files, last_stat p files' with
  | Some (f, _), Some (f', _) =>
      _compute_file_hash sha256 f = _compute_file_hash sha256 f'
  | None, None => True
  | _, _ => False
  end.
Proof.
  induction 1 as [|pf pf' files files' (Hp & Hs & Hh) _ IH]; simpl; [done|].
  destruct (last_stat p files) as [[f [m s]]|],
    (last_stat p files') as [[f' [m' s']]|]; try done.
  rewrite <- Hp. case_bool_decide; [|done].
  destruct (f_stat (snd pf)) as [ms|], (f_stat (snd pf')) as [ms'|]; simpl.
  - destruct ms, ms'. done.
  - by destruct (proj1 Hs (mk_is_Some _ _ eq_refl)).
  - by destruct (proj2 Hs (mk_is_Some _ _ eq_refl)).
  - done.
Qed.

(** Against the fingerprints taken from [files], a listing that fingerprints
    alike yields the same keys with the same hashes. *)
Lemma incremental_agrees (files files' : list (list string * file))
    (lb : option Z) (p : string) :
  Forall2 (same_fingerprint sha256) files files' →
  let cached := _compute_skill_hash_incremental sha256 files None in
  let current :=
    _compute_skill_hash_incremental sha256 files'
      (Some (MkData lb (Some cached))) in
  match current !! p, cached !! p with
  | Some e, Some c => e_hash e = e_hash c
  | None, None => True
  | _, _ => False
  end.
Proof.
  intros HR. cbn zeta. unfold _compute_skill_hash_incremental. simpl.
  pose proof (last_stat_related files files' p HR) as Hrel.
  rewrite !hash_fold_lookup.
  destruct (last_stat p files) as [[f [m s]]|] eqn:E,
    (last_stat p files') as [[f' [m' s']]|] eqn:E'; try done.
  unfold entry_for at 1. rewrite hash_fold_lookup, E.
  assert (Hfresh : entry_for sha256 ∅ p f m s = fresh_entry sha256 f m s).
  { unfold entry_for. by rewrite lookup_empty. }
  rewrite Hfresh. destruct (_ && _); simpl; [done|]. by rewrite Hrel.
Qed.

Lemma no_change_detected (files files' : list (list string * file))
    (lb : option Z) :
  Forall2 (same_fingerprint sha256) files files' →
  let cached := _compute_skill_hash_incremental sha256 files None in
  hashes_differ
    (_compute_skill_hash_incremental sha256 files'
       (Some (MkData lb (Some cached)))) cached = false.
Proof.
  intros HR cached.
  set (current := _compute_skill_hash_incremental sha256 files' _).
  assert (Hag : ∀ p, match current !! p, cached !! p with
                     | Some e, Some c => e_hash e = e_hash c
                     | None, None => True
                     | _, _ => False
                     end).
  { intros p. by apply incremental_agrees. }
  assert (Hdom : dom current = dom cached).
  { apply set_eq. intros p. rewrite !elem_of_dom. specialize (Hag p).
    destruct (current !! p), (cached !! p); try done;
      split; try (intros [? ?]; done); eauto. }
  unfold hashes_differ.
  rewrite <- !size_dom, Hdom. rewrite !bool_decide_eq_true_2 by done. simpl.
  apply not_true_is_false. intros (kv & Hin & Hne)%existsb_exists.
  apply list_elem_of_In in Hin. destruct kv as [k v].
  apply elem_of_map_to_list in Hin. specialize (Hag k). rewrite Hin in Hag.
  simpl in Hne. destruct (cached !! k) as [c|]; [|done].
  simpl in Hne. by rewrite bool_decide_eq_true_2 in Hne.
Qed.

Lemma same_fingerprint_refl (files : list (list string * file)) :
  Forall2 (same_fingerprint sha256) files files.
Proof. apply Forall2_same_length_lookup_2; [done|]. intros i x y ? ?. simplify_eq. done. Qed.

(** C10. A file that cannot be read hashes to the empty string, so any two
    such files hash alike and a listing in which one replaces the other is
    not reported as changed; a file whose [stat] fails leaves the fingerprint
    set as if the file were not there. [_compute_file_hash] and
    [_compute_skill_hash_incremental] are total. *)
Theorem unreadable_files_fingerprint (f1 f2 failing : file)
    (before after : list (list string * file)) (parts : list string)
    (cache : option cache_data) :
  f_data f1 = None → f_data f2 = None →
  is_Some (f_stat f1) → is_Some (f_stat f2) → f_stat failing = None →
  _compute_file_hash sha256 f1 = EmptyString ∧
  _compute_file_hash sha256 f1 = _compute_file_hash sha256 f2 ∧
  (let cached :=
     _compute_skill_hash_incremental sha256 (before ++ (parts, f1) :: after)
       None in
   hashes_differ
     (_compute_skill_hash_incremental sha256 (before ++ (parts, f2) :: after)
        (Some (MkData None (Some cached)))) cached = false) ∧
  _compute_skill_hash_incremental sha256 (before ++ (parts, failing) :: after)
    cache
  = _compute_skill_hash_incremental sha256 (before ++ after) cache.
Proof.
  intros H1 H2 Hs1 Hs2 Hf.
  assert (Hh1 : _compute_file_hash sha256 f1 = EmptyString).
  { unfold _compute_file_hash. by rewrite H1. }
  assert (Hh2 : _compute_file_hash sha256 f2 = EmptyString).
  { unfold _compute_file_hash. by rewrite H2. }
  split; [done|]. split; [congruence|]. split.
  - apply no_change_detected. apply Forall2_app; [apply same_fingerprint_refl|].
    constructor; [|apply same_fingerprint_refl].
    split; [done|]. split; [tauto|]. simpl. congruence.
  - unfold _compute_skill_hash_incremental.
    rewrite !fold_left_app. simpl. unfold hash_step at 2. simpl.
    by rewrite Hf.
Qed.

End fingerprints.

Lemma unreadable_files_fingerprint_witness :
  Cache._compute_file_hash (λ bytes, "sha256:" +:+ bytes)
    (FS.MkFile None (Some (1, 2)))
  = Cache._compute_file_hash (λ bytes, "sha256:" +:+ bytes)
      (FS.MkFile None (Some (3, 4))).
Proof.
  apply (unreadable_files_fingerprint (λ bytes, "sha256:" +:+ bytes)
           (FS.MkFile None (Some (1, 2))) (FS.MkFile None (Some (3, 4)))
           (FS.MkFile (Some "x") None) [] [] ["a"] None);
    first [reflexivity | by eexists].
Defined.

(** ** [delete_snapshot] *)

Section delete.
Import FS Cache Engine.

Lemma acquire_lock_cases (w : world) :
  _acquire_lock w = (Return false, w) ∨
  ∃ l, _acquire_lock w = (Return true, set_lock_file (Some l) w).
Proof.
  unfold _acquire_lock. destruct (lock_file w) as [l|]; [|right; by eexists].
  destruct (600 <? now w - lock_mtime l); [right; by eexists|by left].
Qed.

(** C9. A version that holds a slash without starting with the tree's name
    and a slash makes [delete_snapshot] exit with status 1; at most the
    network probe has been issued by then, so no local or remote tag has been
    deleted, and trees, repository and cache are as before. *)
Theorem delete_rejects_foreign_version (w : world) (skill_name version : string) :
  PyStr.contains "/" version = true →
  PyStr.startswith version (skill_name +:+ "/") = false →
  ∃ w', delete_snapshot skill_name version w = (Exit 1, w') ∧
        skills_dir w' = skills_dir w ∧ repo w' = repo w ∧ cache w' = cache w ∧
        (log w' = log w ∨ log w' = ["gh"; "api"; "user"; "-q"; ".login"] :: log w).
Proof.
  intros Hslash Hprefix. unfold delete_snapshot.
  case_bool_decide; [by eexists; split; [reflexivity|]; auto|].
  unfold mbind at 1, M_bind at 1.
  destruct (acquire_lock_cases w) as [->|[l ->]]; simpl.
  { eexists; split; [reflexivity|]; auto. }
  unfold try_finally, _delete_snapshot_impl, check_network.
  unfold mbind, M_bind, mret, M_ret, _run_command. simpl.
  rewrite Hprefix, Hslash.
  destruct (_ && _); simpl; eexists; (split; [reflexivity|]); simpl; auto.
Qed.

End delete.

(** ** [backup_all] *)

Section batch.
Import FS Cache Engine Samples.

(** While a lock file younger than the staleness threshold exists, [save]
    fails before doing anything. *)
Lemma save_under_held_lock (w : world) (l : lock_record) (skill_name : string)
    (message : option string) (sync_remote skip_fast_check : bool) :
  lock_file w = Some l → now w - lock_mtime l ≤ 600 →
  skill_name ≠ SELF_SKILL_NAME →
  save skill_name message sync_remote skip_fast_check w
  = (Raise (SnapshotError IN_PROGRESS), w).
Proof.
  intros Hl Hage Hne. unfold save. rewrite bool_decide_eq_false_2 by done.
  unfold mbind, M_bind, _acquire_lock. rewrite Hl.
  by rewrite (proj2 (Z.ltb_ge _ _)) by lia.
Qed.

Lemma backup_loop_under_held_lock (w : world) (l : lock_record)
    (message : option string) (skills : list string)
    (failed : list (string * exn)) (count : nat) :
  lock_file w = Some l → now w - lock_mtime l ≤ 600 →
  Forall (λ skill, skill ≠ SELF_SKILL_NAME) skills →
  backup_loop message skills failed count w
  = (Return (failed ++ ((λ skill, (skill, SnapshotError IN_PROGRESS)) <$> skills),
             count), w).
Proof.
  intros Hl Hage Hall. revert failed.
  induction Hall as [|skill skills Hne _ IH]; intros failed; simpl.
  - by rewrite app_nil_r.
  - rewrite (save_under_held_lock w l) by done.
    rewrite IH. by rewrite <- app_assoc.
Qed.

Lemma scan_skills_not_self (d : gmap string node) (skill : string) :
  skill ∈ scan_skills d → skill ≠ SELF_SKILL_NAME.
Proof.
  unfold scan_skills. intros ([name n] & -> & Hin)%list_elem_of_fmap.
  apply list_elem_of_filter in Hin as [His _]. simpl in *.
  unfold is_skill in His. destruct n as [|es]; [done|].
  intros ->. rewrite (bool_decide_eq_true_2 (SELF_SKILL_NAME = SELF_SKILL_NAME)) in His by done.
  by rewrite andb_false_r in His.
Qed.

(** C1 (what the code does). Started without a lock file, a [backup_all]
    that reaches its summary has saved nothing: every tree the scan marked as
    changed failed in [save] with "Another snapshot operation is in
    progress", because [save] tries to take the lock that the batch holds. *)
Theorem backup_all_saves_nothing (w w' : world) (message : option string)
    (s : summary) :
  lock_file w = None →
  backup_all message w = (Return (Some s), w') →
  had_changes s ≠ [] ∧ success_count s = 0%nat ∧
  failures s = (λ skill, (skill, SnapshotError IN_PROGRESS)) <$> had_changes s.
Proof.
  intros Hfree. unfold backup_all, mbind at 1, M_bind at 1, _acquire_lock.
  rewrite Hfree. simpl. unfold try_finally.
  set (w1 := set_lock_file _ w).
  destruct (backup_all_body message w1) as [o w2] eqn:Hbody.
  intros Hrun.
  assert (o = Return (Some s)) as ->.
  { destruct (_release_lock w2) as [[[]| |] ?] eqn:E; by simplify_eq. }
  clear Hrun. revert Hbody.
  unfold backup_all_body, check_network, mbind, M_bind, mret, M_ret, get,
    _run_command. simpl.
  destruct (_ && _); [|done]. simpl.
  destruct (skills_dir w) as [d|]; [|done].
  assert (Hloop : ∀ w4 : world,
            lock_file w4 = lock_file w1 → now w4 = now w →
            (let (o0, w5) :=
               backup_loop message
                 (filter (λ skill, has_changes w4 skill = true) (scan_skills d))
                 [] 0%nat w4 in
             match o0 with
             | Return a0 =>
                 (Return
                    (Some
                       (MkSummary (scan_skills d)
                          (filter (λ skill, has_changes w4 skill = true)
                             (scan_skills d)) a0.1 a0.2)), w5)
             | Raise e => (Raise e, w5)
             | Exit c => (Exit c, w5)
             end) = (Return (Some s), w2) →
            filter (λ skill, has_changes w4 skill = true) (scan_skills d) ≠ [] →
            had_changes s ≠ [] ∧ success_count s = 0%nat ∧
            failures s
            = (λ skill, (skill, SnapshotError IN_PROGRESS)) <$> had_changes s).
  { intros w4 Hl Hnow.
    rewrite (backup_loop_under_held_lock w4
               (MkLock (now w) (getpid (rt w)) (now w))); [| done | simpl; lia |].
    - intros [= <-] Hne. done.
    - apply Forall_forall. intros skill [_ Hin]%list_elem_of_filter.
      by eapply scan_skills_not_self. }
  destruct (bool_decide (is_Some (repo w !! ".git"))); simpl;
    (destruct (scan_skills d) as [|s0 l0] eqn:Hscan; [done|]);
    match goal with
    | |- context [filter ?P (s0 :: l0)] =>
        destruct (filter P (s0 :: l0)) as [|s1 l1] eqn:Hf; [done|];
        rewrite <- Hf; intros Hrun; eapply Hloop; [| | exact Hrun |];
        [done | done | by rewrite Hf]
    end.
Qed.

Lemma backup_all_saves_nothing_witness :
  ∃ w', backup_all None w_first_save
        = (Return (Some (MkSummary ["alpha"] ["alpha"]
                           [("alpha", SnapshotError IN_PROGRESS)] 0)), w') ∧
        failures (MkSummary ["alpha"] ["alpha"]
                    [("alpha", SnapshotError IN_PROGRESS)] 0)
        = (λ skill, (skill, SnapshotError IN_PROGRESS)) <$> ["alpha"].
Proof.
  eexists. split; [vm_compute; reflexivity|].
  eapply (backup_all_saves_nothing w_first_save _ None); [reflexivity|].
  vm_compute. reflexivity.
Defined.

End batch.


(** ** [restore] *)

Section rollback.
Import FS Cache Engine Samples.





#[local] Arguments swap_in : simpl never.










End rollback.

(** ** Instances on the sample worlds *)

Section instances.
Import FS Cache Engine Samples.


Lemma delete_rejects_foreign_version_witness :
  ∃ w', delete_snapshot "alpha" "beta/v1" w_first_save = (Exit 1, w') ∧
        skills_dir w' = skills_dir w_first_save ∧
        repo w' = repo w_first_save ∧ cache w' = cache w_first_save ∧
        (log w' = log w_first_save
         ∨ log w' = ["gh"; "api"; "user"; "-q"; ".login"] :: log w_first_save).
Proof.
  apply (delete_rejects_foreign_version w_first_save "alpha" "beta/v1");
    reflexivity.
Defined.

End instances.

(** ** [save] *)

Section saving.
Import FS Cache Engine Samples.

Lemma checkout_tree_git (old new : gmap string node) :
  checkout_tree old new !! ".git" = old !! ".git".
Proof.
  unfold checkout_tree. destruct (old !! ".git") eqn:E.
  - by rewrite lookup_insert_eq.
  - by rewrite lookup_delete_eq.
Qed.

Lemma checkout_tree_same (tree : gmap string node) : checkout_tree tree tree = tree.
Proof.
  unfold checkout_tree. destruct (tree !! ".git") eqn:E.
  - by apply insert_id.
  - by apply delete_id.
Qed.

Lemma evolves_refl (w : world) : evolves w w [].
Proof. by repeat split. Qed.

Lemma evolves_trans (w w1 w2 : world) (i1 i2 : list (list string)) :
  evolves w w1 i1 → evolves w1 w2 i2 → evolves w w2 (i2 ++ i1).
Proof.
  intros (? & ? & ? & ? & Hl1 & ?) (? & ? & ? & ? & Hl2 & ?).
  repeat split; try congruence; [|auto].
  by rewrite Hl2, Hl1, app_assoc.
Qed.

(** One external command: the setting stays, the cache stays, the working
    tree stays unless the command is a pull or a checkout. *)
Lemma bind_step {B : Type} (cmd : list string) (k : response → M B)
    (w w' : world) (out : outcome B) :
  (_run_command cmd ≫= k) w = (out, w') →
  ∃ r w1, k r w1 = (out, w') ∧ evolves w w1 [cmd] ∧ cache w1 = cache w ∧
          (touches_worktree cmd = false → repo w1 = repo w).
Proof.
  unfold mbind, M_bind, _run_command. intros H.
  eexists _, _. split; [exact H|]. split; [|split; [done|]].
  - repeat split. simpl. destruct (touches_worktree cmd); [|done].
    by rewrite checkout_tree_git.
  - simpl. by intros ->.
Qed.

Lemma has_changes_ext (w1 w2 : world) (skill_name : string) :
  rt w1 = rt w2 → skills_dir w1 = skills_dir w2 →
  repo w1 !! skill_name = repo w2 !! skill_name → cache w1 = cache w2 →
  has_changes w1 skill_name = has_changes w2 skill_name.
Proof.
  unfold has_changes, skill_files, skill_path. by intros -> -> -> ->.
Qed.

(** Right after [_update_cache_after_save], with a snapshot directory in
    place, the fast check finds no change. *)
Lemma has_changes_after_update (w1 w0 : world) (skill_name : string) (n : node)
    (t : Z) (c : gmap string cache_file) :
  rt w1 = rt w0 → skills_dir w1 = skills_dir w0 →
  repo w1 !! skill_name = Some n →
  cache w1
  = Cache._update_cache_after_save (sha256 (rt w0)) t skill_name
      (skill_files w0 skill_name) c →
  has_changes w1 skill_name = false.
Proof.
  intros Hrt Hsk Hrepo Hcache.
  unfold has_changes, Cache._has_changes_fast. rewrite Hrepo, Hcache.
  unfold Cache._update_cache_after_save, _save_cache, _load_cache.
  rewrite lookup_insert_eq, bool_decide_eq_true_2 by done. simpl.
  replace (skill_files w1 skill_name) with (skill_files w0 skill_name)
    by (unfold skill_files, skill_path; by rewrite Hrt, Hsk).
  rewrite Hrt. apply no_change_detected, same_fingerprint_refl.
Qed.

(** A tree whose fast check finds no change: [save] returns false, having
    issued at most the network probe, a pull and a fetch. *)
Lemma save_unchanged_tree (w : world) (skill_name : string)
    (message : option string) (sync_remote : bool) :
  skill_name ≠ SELF_SKILL_NAME → lock_file w = None →
  is_Some (skill_path w skill_name) → is_Some (repo w !! ".git") →
  has_changes w skill_name = false →
  (sync_remote = true → remote_quiet w) →
  ∃ w2, save skill_name message sync_remote false w = (Return false, w2) ∧
        cache w2 = cache w ∧ repo w2 = repo w ∧
        skills_dir w2 = skills_dir w ∧ lock_file w2 = None ∧
        ∃ issued, log w2 = issued ++ log w ∧
                  Forall (λ cmd, creates_snapshot cmd = false) issued.
Proof.
  intros Hself Hlock [source Hsrc] Hgit Hsame Hquiet.
  unfold save. rewrite bool_decide_eq_false_2 by done.
  unfold mbind at 1, M_bind at 1, _acquire_lock. rewrite Hlock. simpl.
  set (w0 := set_lock_file _ w).
  assert (Hsrc0 : skill_path w0 skill_name = Some source) by done.
  assert (Hgit0 : is_Some (repo w0 !! ".git")) by done.
  unfold try_finally, _save_impl.
  unfold mbind at 1, M_bind at 1, get. rewrite Hsrc0.
  rewrite (bool_decide_eq_true_2 _ Hgit0). simpl.
  destruct sync_remote.
  - destruct (Hquiet eq_refl (log w0) (repo w0)) as (Hrc & Hout & _).
    destruct (Hquiet eq_refl (["gh"; "api"; "user"; "-q"; ".login"] :: log w0)
                (repo w0)) as (_ & _ & Hpull).
    unfold sync_with_remote, check_network, mbind, M_bind, mret, M_ret,
      _run_command, _has_changes_fast. simpl.
    rewrite (bool_decide_eq_true_2 _ Hrc), (bool_decide_eq_false_2 _ Hout). simpl.
    change (rt w0) with (rt w) in Hpull. change (log w0) with (log w) in Hpull.
    change (repo w0) with (repo w) in Hpull.
    rewrite Hpull, checkout_tree_same.
    match goal with
    | |- context [has_changes ?wx skill_name] =>
        rewrite (has_changes_ext wx w skill_name) by done
    end.
    rewrite Hsame. simpl. eexists. split; [reflexivity|]. simpl.
    repeat split.
    exists [["git"; "fetch"; "--tags"; "--quiet"];
            ["git"; "pull"; "--quiet"; "origin"; DEFAULT_BRANCH];
            ["gh"; "api"; "user"; "-q"; ".login"]].
    split; [done|]. repeat constructor.
  - unfold mbind, M_bind, mret, M_ret, _has_changes_fast. simpl.
    rewrite (has_changes_ext w0 w skill_name) by done.
    rewrite Hsame. simpl. eexists. split; [reflexivity|]. simpl.
    repeat split. exists []. split; [done|]. constructor.
Qed.

Lemma bind_probe {B : Type} (k : bool → M B) (w w' : world) (out : outcome B) :
  (check_network ≫= k) w = (out, w') →
  ∃ b w1, k b w1 = (out, w') ∧
          evolves w w1 [["gh"; "api"; "user"; "-q"; ".login"]] ∧
          cache w1 = cache w ∧ repo w1 = repo w.
Proof.
  unfold check_network, mbind, M_bind, mret, M_ret, _run_command. intros H.
  eexists _, _. split; [exact H|]. by repeat split.
Qed.

Lemma bind_sync {B : Type} (sync_remote : bool) (k : unit → M B)
    (w w' : world) (b : B) :
  ((if sync_remote then sync_with_remote else mret tt) ≫= k) w = (Return b, w') →
  ∃ w1 issued, k tt w1 = (Return b, w') ∧ evolves w w1 issued ∧
               cache w1 = cache w ∧
               Forall (λ cmd, creates_snapshot cmd = false) issued.
Proof.
  destruct sync_remote.
  - unfold sync_with_remote. intros H.
    unfold mbind at 1, M_bind at 1 in H.
    destruct (check_network ≫= _) eqn:Hsync in H.
    apply bind_probe in Hsync as (net & w1 & Hsync & Hev1 & Hc1 & _).
    destruct net; simpl in Hsync; [|injection Hsync as <- <-; done].
    apply bind_step in Hsync as (r2 & w2 & Hsync & Hev2 & Hc2 & _).
    apply bind_step in Hsync as (r3 & w3 & Hsync & Hev3 & Hc3 & _).
    injection Hsync as <- <-.
    exists w3, [["git"; "fetch"; "--tags"; "--quiet"];
                ["git"; "pull"; "--quiet"; "origin"; DEFAULT_BRANCH];
                ["gh"; "api"; "user"; "-q"; ".login"]].
    split; [exact H|]. split; [|split; [congruence|repeat constructor]].
    apply (evolves_trans _ _ _ _ _ (evolves_trans _ _ _ _ _ Hev1 Hev2) Hev3).
  - intros H. exists w, []. split; [exact H|]. split; [apply evolves_refl|].
    split; [done|constructor].
Qed.

Lemma bind_stage_copy {B : Type} (skill_name : string) (source : node)
    (k : unit → M B) (w w' : world) (b : B) :
  (stage_copy skill_name source ≫= k) w = (Return b, w') →
  ∃ n w1, k tt w1 = (Return b, w') ∧ evolves w w1 [] ∧ cache w1 = cache w ∧
          repo w1 !! skill_name = Some n.
Proof.
  unfold mbind, M_bind, stage_copy. intros H.
  destruct (match repo w !! skill_name with
            | Some _ => rmtree skill_name (repo w)
            | None => Done (repo w)
            end) as [r|msg] eqn:Hclean; [|done].
  destruct (copytree (fault (rt w)) true source) as [n|msg partial]; [|done].
  exists n, (set_repo (<[skill_name := n]> r) w). split; [exact H|].
  split; [|split; [done|by simpl; rewrite lookup_insert_eq]].
  repeat split. simpl. intros Hgit.
  destruct (decide (skill_name = ".git")) as [->|Hne];
    [by rewrite lookup_insert_eq|].
  rewrite lookup_insert_ne by done.
  destruct (repo w !! skill_name) as [old|]; [|by simplify_eq].
  unfold rmtree in Hclean. destruct (repo w !! skill_name) as [[|es]|];
    simplify_eq. by rewrite lookup_delete_ne.
Qed.

Lemma try_finally_release {A : Type} (body : M A) (w w' : world)
    (out : outcome A) :
  try_finally body _release_lock w = (out, w') →
  ∃ w1, body w = (out, w1) ∧ lock_file w' = None ∧ rt w' = rt w1 ∧
        now w' = now w1 ∧ skills_dir w' = skills_dir w1 ∧
        repo w' = repo w1 ∧ cache w' = cache w1 ∧ log w' = log w1.
Proof.
  unfold try_finally, _release_lock. destruct (body w) as [o w1].
  destruct (lock_file w1) eqn:E; intros [= <- <-]; by exists w1.
Qed.

(** What a [save] that returns leaves behind. *)
Lemma save_returned (w w1 : world) (skill_name : string)
    (message : option string) (sync_remote skip_fast_check created : bool) :
  save skill_name message sync_remote skip_fast_check w = (Return created, w1) →
  save_post w w1 skill_name skip_fast_check created.
Proof.
  unfold save. case_bool_decide as Hself; [done|].
  unfold mbind at 1, M_bind at 1.
  destruct (acquire_lock_cases w) as [->|[l ->]]; simpl; [done|].
  set (w0 := set_lock_file (Some l) w).
  assert (Hrt0 : rt w0 = rt w) by done.
  assert (Hnow0 : now w0 = now w) by done.
  assert (Hsk0 : skills_dir w0 = skills_dir w) by done.
  assert (Hrepo0 : repo w0 = repo w) by done.
  assert (Hcache0 : cache w0 = cache w) by done.
  assert (Hlog0 : log w0 = log w) by done.
  clearbody w0. intros H.
  apply try_finally_release in H
    as (wz & H & Hlock & Hrtz & Hnowz & Hskz & Hrepoz & Hcachez & Hlogz).
  unfold _save_impl in H. unfold mbind at 1, M_bind at 1, get in H.
  destruct (skill_path w0 skill_name) as [source|] eqn:Hsrc; [|done].
  case_bool_decide as Hgit; simpl in H; [|done].
  assert (Hpath : is_Some (skill_path w skill_name)).
  { unfold skill_path in *. rewrite <- Hsk0, Hsrc. by eexists. }
  apply bind_sync in H as (wB & iB & H & HevB & HcB & HnB).
  destruct HevB as (HrtB & HnowB & _ & HskB & HlogB & HgitB).
  specialize (HgitB Hgit).
  assert (Hchanged :
            ∃ changed,
              (changed = false →
               skip_fast_check = false ∧ has_changes wB skill_name = false) ∧
              (if negb changed then mret false
               else
                 res_tags ← _run_command ["git"; "tag"; "-l"; skill_name +:+ "/v*"];
                 _ ← stage_copy skill_name source;
                 _ ← _run_command ["git"; "add"; skill_name +:+ "/"];
                 res_diff ← _run_command ["git"; "diff"; "--cached"; "--quiet"];
                 if bool_decide (returncode res_diff = 0)
                 then _ ← _update_cache_after_save skill_name; mret false
                 else
                   res_commit ←
                     _run_command
                       ["git"; "commit"; "--quiet"; "-m";
                        "[" +:+ skill_name +:+ "] "
                        +:+ Tags.version_tag
                              (Tags.next_ver skill_name
                                 (PyStr.splitlines
                                    (PyStr.strip (stdout res_tags))))
                        +:+ ": "
                        +:+ match message with
                            | Some m =>
                                if bool_decide (m = EmptyString)
                                then default_message w0 else m
                            | None => default_message w0
                            end];
                   if negb (bool_decide (returncode res_commit = 0))
                   then raise (SnapshotError "Error committing changes.")
                   else
                     _ ← _run_command
                           ["git"; "tag"; "-a";
                            Tags.full_tag skill_name
                              (Tags.next_ver skill_name
                                 (PyStr.splitlines
                                    (PyStr.strip (stdout res_tags))));
                            "-m";
                            match message with
                            | Some m =>
                                if bool_decide (m = EmptyString)
                                then default_message w0 else m
                            | None => default_message w0
                            end];
                     _ ← _run_command
                           ["git"; "push"; "--quiet"; "origin"; DEFAULT_BRANCH];
                     _ ← _run_command
                           ["git"; "push"; "--quiet"; "origin";
                            Tags.full_tag skill_name
                              (Tags.next_ver skill_name
                                 (PyStr.splitlines
                                    (PyStr.strip (stdout res_tags))))];
                     _ ← _update_cache_after_save skill_name;
                     mret true) wB = (Return created, wz)).
  { destruct skip_fast_check.
    - exists true. split; [done|exact H].
    - exists (has_changes wB skill_name). split; [done|exact H]. }
  clear H. destruct Hchanged as (changed & Hch & H).
  destruct changed; simpl in H.
  2:{ destruct (Hch eq_refl) as [-> Hno]. injection H as <- <-.
      repeat split; try congruence.
      - rewrite <- Hno. apply has_changes_ext; congruence.
      - exists iB. split; [congruence|done].
      - left. split; [done|congruence]. }
  clear Hch.
  apply bind_step in H as (rT & wT & H & HevT & HcT & HrT).
  destruct HevT as (HrtT & HnowT & _ & HskT & HlogT & HgitT).
  apply bind_stage_copy in H as (n & wS & H & HevS & HcS & HrS).
  destruct HevS as (HrtS & HnowS & _ & HskS & HlogS & HgitS).
  apply bind_step in H as (rA & wA & H & HevA & HcA & HrA).
  destruct HevA as (HrtA & HnowA & _ & HskA & HlogA & HgitA).
  apply bind_step in H as (rD & wD & H & HevD & HcD & HrD).
  destruct HevD as (HrtD & HnowD & _ & HskD & HlogD & HgitD).
  specialize (HrT eq_refl). specialize (HrA eq_refl). specialize (HrD eq_refl).
  assert (HrtDw : rt wD = rt w) by congruence.
  assert (HskDw : skills_dir wD = skills_dir w) by congruence.
  assert (HnowDw : now wD = now w) by congruence.
  assert (HgitDw : is_Some (repo wD !! ".git")) by auto.
  assert (HrepoD : repo wD !! skill_name = Some n) by congruence.
  assert (Hfiles : ∀ wx, rt wx = rt w → skills_dir wx = skills_dir w →
                         skill_files wx skill_name = skill_files w skill_name).
  { intros wx Hr Hs. unfold skill_files, skill_path. by rewrite Hr, Hs. }
  case_bool_decide as Hdiff.
  - unfold mbind, M_bind, mret, M_ret, _update_cache_after_save in H.
    injection H as <- <-. simpl in *.
    repeat split; try congruence.
    + eapply (has_changes_after_update w1 wD skill_name n); [congruence..|].
      by rewrite Hcachez.
    + exists (["git"; "diff"; "--cached"; "--quiet"]
              :: ["git"; "add"; skill_name +:+ "/"]
              :: ["git"; "tag"; "-l"; skill_name +:+ "/v*"] :: iB).
      split.
      * rewrite Hlogz, HlogD, HlogA, HlogS, HlogT, HlogB, Hlog0. done.
      * repeat constructor. done.
    + right. rewrite Hcachez.
      unfold Cache._update_cache_after_save, _save_cache.
      rewrite lookup_insert_eq. simpl. unfold fresh_fingerprints.
      by rewrite (Hfiles wD HrtDw HskDw), HrtDw, HnowDw.
  - apply bind_step in H as (rC & wC & H & HevC & HcC & HrC).
    destruct HevC as (HrtC & HnowC & _ & HskC & HlogC & HgitC).
    case_bool_decide as Hcommit; simpl in H; [|done].
    apply bind_step in H as (r1 & wa & H & Heva & Hca & Hra).
    destruct Heva as (Hrta & Hnowa & _ & Hska & Hloga & Hgita).
    apply bind_step in H as (r2 & wb & H & Hevb & Hcb & Hrb).
    destruct Hevb as (Hrtb & Hnowb & _ & Hskb & Hlogb & Hgitb).
    apply bind_step in H as (r3 & wc & H & Hevc & Hcc & Hrc).
    destruct Hevc as (Hrtc & Hnowc & _ & Hskc & Hlogc & Hgitc).
    specialize (HrC eq_refl). specialize (Hra eq_refl).
    specialize (Hrb eq_refl). specialize (Hrc eq_refl).
    unfold mbind, M_bind, mret, M_ret, _update_cache_after_save in H.
    injection H as <- <-. simpl in *.
    repeat split; try congruence.
    eapply (has_changes_after_update w1 wc skill_name n); [congruence..|].
    by rewrite Hcachez.
Qed.

(** C4. After a [save] that returned, a second [save] of the same tree, at
    any later time and with the live tree as it was, returns false: it issues
    no commit and no tag command and leaves cache and repository alone (with
    [sync_remote], provided the remote side is quiet). And a [save] that
    reports no snapshot has issued no commit or tag command, and has either
    been stopped by the fast check or, the staged content being unchanged,
    stored the fingerprints of the tree in the cache. *)
Theorem second_save_creates_nothing (w w1 : world) (skill_name : string)
    (message message' : option string)
    (sync_remote skip_fast_check sync_remote' created : bool) (later : Z) :
  save skill_name message sync_remote skip_fast_check w = (Return created, w1) →
  (sync_remote' = true → remote_quiet w1) →
  (∃ w2, save skill_name message' sync_remote' false (set_now later w1)
         = (Return false, w2) ∧
         cache w2 = cache w1 ∧ repo w2 = repo w1 ∧
         skills_dir w2 = skills_dir w1 ∧
         ∃ issued, log w2 = issued ++ log w1 ∧
                   Forall (λ cmd, creates_snapshot cmd = false) issued) ∧
  (created = false →
   (∃ issued, log w1 = issued ++ log w ∧
              Forall (λ cmd, creates_snapshot cmd = false) issued) ∧
   ((skip_fast_check = false ∧ cache w1 = cache w) ∨
    cache w1 !! skill_name
    = Some (Json (Some CACHE_VERSION) (Some (now w))
              (Some (fresh_fingerprints w skill_name))))).
Proof.
  intros Hfirst Hquiet.
  destruct (save_returned _ _ _ _ _ _ _ Hfirst)
    as (Hself & Hlock & Hrt & Hsk & [source Hsrc] & Hgit & Hsame & Hno).
  split; [|exact Hno].
  destruct (save_unchanged_tree (set_now later w1) skill_name message'
              sync_remote') as (w2 & Hrun & Hc & Hr & Hs & _ & Hlog).
  - done.
  - done.
  - exists source. unfold skill_path in *. simpl. by rewrite Hsk.
  - done.
  - rewrite <- Hsame. by apply has_changes_ext.
  - intros Hsync history tree. apply (Hquiet Hsync history tree).
  - exists w2. done.
Qed.

Lemma second_save_creates_nothing_witness :
  ∃ w2, save "alpha" None true false (set_now 2000 w_saved) = (Return false, w2) ∧
        cache w2 = cache w_saved ∧ repo w2 = repo w_saved ∧
        skills_dir w2 = skills_dir w_saved ∧
        ∃ issued, log w2 = issued ++ log w_saved ∧
                  Forall (λ cmd, creates_snapshot cmd = false) issued.
Proof.
  refine (proj1 (second_save_creates_nothing w_first_save w_saved "alpha"
                   (Some "msg") None true false true true 2000 _ _)).
  - vm_compute. reflexivity.
  - intros _ history tree. repeat split; [vm_compute; discriminate].
Defined.

End saving.

(** * Further properties of the script *)

(** ** Lock, cache file and tag names *)

Section basics.
Import FS Cache Engine Samples.

Lemma set_lock_file_undo (w : world) (l : option lock_record) :
  lock_file w = None → set_lock_file None (set_lock_file l w) = w.
Proof. destruct w. simpl. by intros ->. Qed.

(** X1. A free lock is taken; while it is held a second [_acquire_lock] at
    the same time fails and changes nothing; [_release_lock] then gives back
    the world of the start. *)
Theorem lock_round_trip (w : world) :
  lock_file w = None →
  ∃ w1, _acquire_lock w = (Return true, w1) ∧
        lock_file w1 = Some (MkLock (now w) (getpid (rt w)) (now w)) ∧
        _acquire_lock w1 = (Return false, w1) ∧
        _release_lock w1 = (Return tt, w).
Proof.
  intros Hfree. unfold _acquire_lock at 1. rewrite Hfree.
  eexists. split; [reflexivity|]. split; [reflexivity|]. split.
  - unfold _acquire_lock. simpl. by rewrite Z.sub_diag.
  - unfold _release_lock. simpl. by rewrite set_lock_file_undo.
Qed.

Lemma lock_round_trip_witness :
  ∃ w1, _acquire_lock w_first_save = (Return true, w1) ∧
        lock_file w1 = Some (MkLock 1000 4242 1000) ∧
        _acquire_lock w1 = (Return false, w1) ∧
        _release_lock w1 = (Return tt, w_first_save).
Proof. apply (lock_round_trip w_first_save). reflexivity. Defined.


Lemma startswith_app (p rest : string) : PyStr.startswith (p +:+ rest) p = true.
Proof. unfold PyStr.startswith. by rewrite strip_prefix_app. Qed.

(** X3. The tag that [restore] and [diff] build from a version argument
    always starts with the name of the tree and a slash, and building it from
    an already qualified tag changes nothing. *)
Theorem qualify_in_namespace (skill_name version : string) :
  PyStr.startswith (Tags.qualify skill_name version) (skill_name +:+ "/") = true ∧
  Tags.qualify skill_name (Tags.qualify skill_name version)
  = Tags.qualify skill_name version.
Proof.
  assert (H : PyStr.startswith (Tags.qualify skill_name version)
                (skill_name +:+ "/") = true).
  { unfold Tags.qualify.
    destruct (PyStr.startswith version (skill_name +:+ "/")) eqn:E; [done|].
    rewrite <- str_app_assoc. apply startswith_app. }
  split; [done|]. unfold Tags.qualify at 1. by rewrite H.
Qed.

End basics.

(** ** What the fast check sees *)

Section detection.
Import FS Cache.
Context (sha256 : string → string).

Lemma check_after_update_unfold (skill_name : string) (snapshot : node)
    (t : Z) (cache : gmap string cache_file)
    (files files' : list (list string * file)) :
  check_after_update sha256 skill_name snapshot t cache files files'
  = hashes_differ
      (_compute_skill_hash_incremental sha256 files'
         (Some (MkData (Some t)
                  (Some (_compute_skill_hash_incremental sha256 files None)))))
      (_compute_skill_hash_incremental sha256 files None).
Proof.
  unfold check_after_update, _has_changes_fast, _update_cache_after_save,
    _save_cache, _load_cache.
  by rewrite lookup_insert_eq, bool_decide_eq_true_2.
Qed.

Lemma fresh_lookup (files : list (list string * file)) (p : string) :
  _compute_skill_hash_incremental sha256 files None !! p
  = (λ r, fresh_entry sha256 (fst r) (fst (snd r)) (snd (snd r)))
      <$> last_stat p files.
Proof.
  unfold _compute_skill_hash_incremental. simpl. rewrite hash_fold_lookup.
  destruct (last_stat p files) as [[f [m s]]|]; simpl; [|apply lookup_empty].
  unfold entry_for. by rewrite lookup_empty.
Qed.

Lemma current_lookup (files files' : list (list string * file)) (lb : option Z)
    (p : string) :
  _compute_skill_hash_incremental sha256 files'
    (Some (MkData lb (Some (_compute_skill_hash_incremental sha256 files None))))
  !! p
  = (λ r, entry_for sha256 (_compute_skill_hash_incremental sha256 files None)
            p (fst r) (fst (snd r)) (snd (snd r)))
      <$> last_stat p files'.
Proof.
  unfold _compute_skill_hash_incremental at 1. simpl. rewrite hash_fold_lookup.
  destruct (last_stat p files') as [[f [m s]]|]; simpl; [done|].
  apply lookup_empty.
Qed.

Lemma last_stat_app (p : string) (l1 l2 : list (list string * file)) :
  last_stat p (l1 ++ l2)
  = match last_stat p l2 with
    | Some r => Some r
    | None => last_stat p l1
    end.
Proof.
  induction l1 as [|pf l1 IH]; simpl.
  - by destruct (last_stat p l2).
  - rewrite IH. by destruct (last_stat p l2).
Qed.

Lemma last_stat_absent (p : string) (l : list (list string * file)) :
  Forall (λ pf, rel_path (fst pf) ≠ p) l → last_stat p l = None.
Proof.
  induction 1 as [|pf l Hne _ IH]; simpl; [done|].
  rewrite IH. by rewrite bool_decide_eq_false_2.
Qed.

Lemma last_stat_looks_unchanged (files files' : list (list string * file))
    (p : string) :
  Forall2 (looks_unchanged sha256) files files' →
  match last_stat p files, last_stat p files' with
  | Some (f, ms), Some (f', ms') =>
      ms = ms' ∨ _compute_file_hash sha256 f = _compute_file_hash sha256 f'
  | None, None => True
  | _, _ => False
  end.
Proof.
  induction 1 as [|pf pf' files files' (Hp & Hsame) _ IH]; simpl; [done|].
  destruct (last_stat p files) as [[f ms]|],
    (last_stat p files') as [[f' ms']|]; try done.
  rewrite <- Hp. case_bool_decide; [|done].
  destruct Hsame as [Hst|[Hs Hh]].
  - rewrite <- Hst. destruct (f_stat (snd pf)); simpl; [by left|done].
  - destruct (f_stat (snd pf)) as [ms|], (f_stat (snd pf')) as [ms'|]; simpl.
    + by right.
    + by destruct (proj1 Hs (mk_is_Some _ _ eq_refl)).
    + by destruct (proj2 Hs (mk_is_Some _ _ eq_refl)).
    + done.
Qed.

(** Keys and hashes that agree are reported as no change. *)
Lemma hashes_agree_no_change (current cached : gmap string entry) :
  (∀ p, match current !! p, cached !! p with
        | Some e, Some c => e_hash e = e_hash c
        | None, None => True
        | _, _ => False
        end) →
  hashes_differ current cached = false.
Proof.
  intros Hag.
  assert (Hdom : dom current = dom cached).
  { apply set_eq. intros p. rewrite !elem_of_dom. specialize (Hag p).
    destruct (current !! p), (cached !! p); try done;
      split; try (intros [? ?]; done); eauto. }
  unfold hashes_differ.
  rewrite <- !size_dom, Hdom. rewrite !bool_decide_eq_true_2 by done. simpl.
  apply not_true_is_false. intros (kv & Hin & Hne)%existsb_exists.
  apply list_elem_of_In in Hin. destruct kv as [k v].
  apply elem_of_map_to_list in Hin. specialize (Hag k). rewrite Hin in Hag.
  simpl in Hne. destruct (cached !! k) as [c|]; [|done].
  simpl in Hne. by rewrite bool_decide_eq_true_2 in Hne.
Qed.

(** X4. The fast check reports no change when every file kept its path and
    either its modification time and size, whatever its bytes, or its content
    hash: an edit that keeps time and size goes unseen, and a file rewritten
    with the same bytes is not reported. *)
Theorem unchanged_when_stat_or_hash_kept (skill_name : string)
    (snapshot : node) (t : Z) (cache : gmap string cache_file)
    (files files' : list (list string * file)) :
  Forall2 (looks_unchanged sha256) files files' →
  check_after_update sha256 skill_name snapshot t cache files files' = false.
Proof.
  intros HR. rewrite check_after_update_unfold.
  apply hashes_agree_no_change. intros p.
  pose proof (last_stat_looks_unchanged files files' p HR) as Hrel.
  rewrite current_lookup, fresh_lookup.
  destruct (last_stat p files) as [[f [m s]]|] eqn:E,
    (last_stat p files') as [[f' [m' s']]|] eqn:E'; simpl; try done.
  unfold entry_for. rewrite fresh_lookup, E. simpl.
  destruct Hrel as [[= -> ->]|Hh].
  - by rewrite !bool_decide_eq_true_2.
  - destruct (_ && _); simpl; [done|]. by rewrite Hh.
Qed.

(** X5. A file whose modification time or size changed and whose content
    hash changed is reported, as long as no later file of the listing has the
    same relative path. *)
Theorem modified_file_detected (skill_name : string) (snapshot : node)
    (t : Z) (cache : gmap string cache_file)
    (before after : list (list string * file)) (parts : list string)
    (f f' : file) (ms ms' : Z * Z) :
  Forall (λ pf, rel_path (fst pf) ≠ rel_path parts) after →
  f_stat f = Some ms → f_stat f' = Some ms' → ms ≠ ms' →
  _compute_file_hash sha256 f ≠ _compute_file_hash sha256 f' →
  check_after_update sha256 skill_name snapshot t cache
    (before ++ (parts, f) :: after) (before ++ (parts, f') :: after) = true.
Proof.
  intros Hlater Hs Hs' Hms Hh. rewrite check_after_update_unfold.
  assert (Hc : _compute_skill_hash_incremental sha256
                 (before ++ (parts, f) :: after) None !! rel_path parts
               = Some (fresh_entry sha256 f (fst ms) (snd ms))).
  { rewrite fresh_lookup, last_stat_app. simpl.
    rewrite (last_stat_absent _ _ Hlater), bool_decide_eq_true_2 by done.
    by rewrite Hs. }
  assert (Hn : _compute_skill_hash_incremental sha256
                 (before ++ (parts, f') :: after)
                 (Some (MkData (Some t)
                          (Some (_compute_skill_hash_incremental sha256
                                   (before ++ (parts, f) :: after) None))))
               !! rel_path parts
               = Some (fresh_entry sha256 f' (fst ms') (snd ms'))).
  { rewrite current_lookup, last_stat_app. simpl.
    rewrite (last_stat_absent _ _ Hlater), bool_decide_eq_true_2 by done.
    rewrite Hs'. simpl. unfold entry_for. rewrite Hc. simpl.
    destruct ms as [m s], ms' as [m' s']. simpl.
    destruct (bool_decide (Some m = Some m')) eqn:E1,
      (bool_decide (Some s = Some s')) eqn:E2; simpl; try done.
    apply bool_decide_eq_true_1 in E1, E2. by simplify_eq. }
  set (cached := _compute_skill_hash_incremental sha256 _ None) in *.
  set (current := _compute_skill_hash_incremental sha256 _ (Some _)) in *.
  unfold hashes_differ.
  destruct (negb (bool_decide (size current = size cached))); [done|].
  destruct (negb (bool_decide (dom current = dom cached))); [done|].
  apply existsb_exists. exists (rel_path parts, fresh_entry sha256 f' (fst ms') (snd ms')).
  split.
  - apply list_elem_of_In, elem_of_map_to_list. done.
  - simpl. rewrite Hc. simpl. rewrite bool_decide_eq_false_2; [done|].
    intros [= Heq]. by destruct Hh.
Qed.

(** X6. A file that appears under a new relative path, or a fingerprinted
    file that is gone (no file of the listing has its relative path), is
    reported. *)
Theorem added_or_removed_file_detected (skill_name : string)
    (snapshot : node) (t : Z) (cache : gmap string cache_file)
    (before after : list (list string * file)) (parts : list string)
    (f : file) :
  Forall (λ pf, rel_path (fst pf) ≠ rel_path parts) (before ++ after) →
  is_Some (f_stat f) →
  check_after_update sha256 skill_name snapshot t cache
    (before ++ after) (before ++ (parts, f) :: after) = true ∧
  check_after_update sha256 skill_name snapshot t cache
    (before ++ (parts, f) :: after) (before ++ after) = true.
Proof.
  intros Habs [ms Hs].
  pose proof (proj1 (Forall_app _ _ _) Habs) as [_ Hafter].
  assert (Hdiff : ∀ current cached : gmap string entry,
            dom current ≠ dom cached → hashes_differ current cached = true).
  { intros current cached Hne. unfold hashes_differ.
    destruct (negb (bool_decide (size current = size cached))); [done|].
    by rewrite bool_decide_eq_false_2. }
  assert (Hwith :
            ∀ cd, is_Some (_compute_skill_hash_incremental sha256
                     (before ++ (parts, f) :: after) cd !! rel_path parts)).
  { intros cd. unfold _compute_skill_hash_incremental.
    rewrite hash_fold_lookup, last_stat_app. simpl.
    rewrite (last_stat_absent _ _ Hafter), bool_decide_eq_true_2 by done.
    rewrite Hs. destruct ms. simpl. by eexists. }
  assert (Hwithout :
            ∀ cd, _compute_skill_hash_incremental sha256 (before ++ after) cd
                  !! rel_path parts = None).
  { intros cd. unfold _compute_skill_hash_incremental.
    rewrite hash_fold_lookup, (last_stat_absent _ _ Habs). apply lookup_empty. }
  rewrite !check_after_update_unfold. split; apply Hdiff; intros Hdom.
  - specialize (Hwith (Some (MkData (Some t)
                  (Some (_compute_skill_hash_incremental sha256
                           (before ++ after) None))))).
    apply elem_of_dom in Hwith. rewrite Hdom in Hwith.
    apply elem_of_dom in Hwith. rewrite Hwithout in Hwith. by destruct Hwith.
  - specialize (Hwith None). apply elem_of_dom in Hwith.
    rewrite <- Hdom in Hwith. apply elem_of_dom in Hwith.
    rewrite Hwithout in Hwith. by destruct Hwith.
Qed.

End detection.

Lemma unchanged_when_stat_or_hash_kept_witness :
  Cache.check_after_update (λ bytes, "sha256:" +:+ bytes) "alpha" (FS.Dir []) 0 ∅
    [(["SKILL.md"], FS.MkFile (Some "v1") (Some (100, 2)))]
    [(["SKILL.md"], FS.MkFile (Some "v2") (Some (100, 2)))] = false.
Proof.
  apply unchanged_when_stat_or_hash_kept.
  constructor; [|constructor]. split; [reflexivity|]. left. reflexivity.
Defined.

Lemma modified_file_detected_witness :
  Cache.check_after_update (λ bytes, "sha256:" +:+ bytes) "alpha" (FS.Dir []) 0 ∅
    ([] ++ (["SKILL.md"], FS.MkFile (Some "v1") (Some (100, 2))) :: [])
    ([] ++ (["SKILL.md"], FS.MkFile (Some "v22") (Some (200, 3))) :: []) = true.
Proof.
  apply (modified_file_detected (λ bytes, "sha256:" +:+ bytes) "alpha" (FS.Dir [])
           0 ∅ [] [] ["SKILL.md"] _ _ (100, 2) (200, 3));
    [constructor | reflexivity | reflexivity | discriminate | discriminate].
Defined.

Lemma added_or_removed_file_detected_witness :
  Cache.check_after_update (λ bytes, "sha256:" +:+ bytes) "alpha" (FS.Dir []) 0 ∅
    ([] ++ []) ([] ++ (["new.md"], FS.MkFile (Some "n") (Some (5, 1))) :: [])
  = true ∧
  Cache.check_after_update (λ bytes, "sha256:" +:+ bytes) "alpha" (FS.Dir []) 0 ∅
    ([] ++ (["new.md"], FS.MkFile (Some "n") (Some (5, 1))) :: []) ([] ++ [])
  = true.
Proof.
  apply (added_or_removed_file_detected (λ bytes, "sha256:" +:+ bytes) "alpha"
           (FS.Dir []) 0 ∅ [] [] ["new.md"]);
    [constructor | by eexists].
Defined.

(** ** [save], however it ends *)

Section save_any.
Import FS Cache Engine Samples.

Lemma bind_sync_any {B : Type} (sync_remote : bool) (k : unit → M B)
    (w w' : world) (out : outcome B) :
  ((if sync_remote then sync_with_remote else mret tt) ≫= k) w = (out, w') →
  (∃ w1 issued, k tt w1 = (out, w') ∧ evolves w w1 issued ∧
                cache w1 = cache w ∧
                Forall (λ cmd, publishes cmd = false) issued) ∨
  (∃ e issued, out = Raise e ∧ evolves w w' issued ∧ cache w' = cache w ∧
               Forall (λ cmd, publishes cmd = false) issued).
Proof.
  destruct sync_remote.
  - unfold sync_with_remote. intros H.
    unfold mbind at 1, M_bind at 1 in H.
    destruct (check_network ≫= _) as [o wS] eqn:Hsync in H.
    apply bind_probe in Hsync as (net & w1 & Hsync & Hev1 & Hc1 & _).
    destruct net; simpl in Hsync.
    + apply bind_step in Hsync as (r2 & w2 & Hsync & Hev2 & Hc2 & _).
      apply bind_step in Hsync as (r3 & w3 & Hsync & Hev3 & Hc3 & _).
      injection Hsync as <- <-. left.
      exists w3, [["git"; "fetch"; "--tags"; "--quiet"];
                  ["git"; "pull"; "--quiet"; "origin"; DEFAULT_BRANCH];
                  ["gh"; "api"; "user"; "-q"; ".login"]].
      split; [exact H|]. split; [|split; [congruence|repeat constructor]].
      apply (evolves_trans _ _ _ _ _ (evolves_trans _ _ _ _ _ Hev1 Hev2) Hev3).
    + injection Hsync as <- <-. injection H as <- <-. right.
      eexists _, [["gh"; "api"; "user"; "-q"; ".login"]].
      split; [done|]. split; [done|]. split; [done|repeat constructor].
  - intros H. left. exists w, []. split; [exact H|].
    split; [apply evolves_refl|]. split; [done|constructor].
Qed.

Lemma bind_stage_copy_any {B : Type} (skill_name : string) (source : node)
    (k : unit → M B) (w w' : world) (out : outcome B) :
  (stage_copy skill_name source ≫= k) w = (out, w') →
  (∃ w1, k tt w1 = (out, w') ∧ evolves w w1 [] ∧ cache w1 = cache w) ∨
  (∃ e, out = Raise e ∧ rt w' = rt w ∧ now w' = now w ∧
        lock_file w' = lock_file w ∧ skills_dir w' = skills_dir w ∧
        log w' = log w ∧ cache w' = cache w).
Proof.
  unfold mbind, M_bind. destruct (stage_copy skill_name source w) as [o w1] eqn:E.
  intros H. destruct o as [[]|e|c].
  - left. destruct (bind_stage_copy skill_name source (λ _, mret tt) w w1 tt)
      as (n & w2 & [= ->] & Hev & Hc & _).
    { unfold mbind, M_bind. by rewrite E. }
    by exists w1.
  - right. injection H as <- <-. exists e. split; [done|].
    unfold stage_copy in E.
    destruct (match repo w !! skill_name with
              | Some _ => rmtree skill_name (repo w)
              | None => Done (repo w)
              end) as [r|msg]; [|by injection E as <- <-].
    destruct (copytree (fault (rt w)) true source) as [n|msg partial];
      [done|]. by injection E as <- <-.
  - unfold stage_copy in E.
    destruct (match repo w !! skill_name with
              | Some _ => rmtree skill_name (repo w)
              | None => Done (repo w)
              end) as [r|msg]; [|done].
    by destruct (copytree (fault (rt w)) true source).
Qed.

Lemma save_any_outcome (w w1 : world) (skill_name : string)
    (message : option string) (sync_remote skip_fast_check : bool)
    (out : outcome bool) :
  save skill_name message sync_remote skip_fast_check w = (out, w1) →
  save_any_post w out w1.
Proof.
  assert (Hstay : ∀ o, (∀ b, o ≠ Return b ∨ o ≠ Return true) →
                       save_any_post w o w).
  { intros o _. repeat split; try done. exists []. split; [done|].
    split; [constructor|done]. }
  unfold save. case_bool_decide as Hself.
  { intros [= <- <-]. by apply Hstay; intros; left. }
  unfold mbind at 1, M_bind at 1.
  destruct (acquire_lock_cases w) as [->|[l ->]]; simpl.
  { intros [= <- <-]. by apply Hstay; intros; left. }
  clear Hstay.
  set (w0 := set_lock_file (Some l) w).
  assert (Hrt0 : rt w0 = rt w) by done.
  assert (Hnow0 : now w0 = now w) by done.
  assert (Hsk0 : skills_dir w0 = skills_dir w) by done.
  assert (Hcache0 : cache w0 = cache w) by done.
  assert (Hlog0 : log w0 = log w) by done.
  clearbody w0. intros H.
  apply try_finally_release in H
    as (wz & H & Hlock & Hrtz & Hnowz & Hskz & _ & Hcachez & Hlogz).
  (* what is left to show about the world [wz] the body ends in *)
  assert (Hend : ∀ issued,
            rt wz = rt w0 → now wz = now w0 → skills_dir wz = skills_dir w0 →
            log wz = issued ++ log w0 →
            (out ≠ Return true → Forall (λ cmd, publishes cmd = false) issued) →
            ((∀ b, out ≠ Return b) → cache wz = cache w0) →
            save_any_post w out w1).
  { intros issued Hr Hn Hs Hl Hp Hc. repeat split; try congruence.
    exists issued. split; [congruence|]. split; [done|].
    intros Hb. rewrite Hcachez, (Hc Hb). done. }
  unfold _save_impl in H. unfold mbind at 1, M_bind at 1, get in H.
  destruct (skill_path w0 skill_name) as [source|] eqn:Hsrc.
  2:{ injection H as <- <-. apply (Hend []); try done; by constructor. }
  case_bool_decide as Hgit; simpl in H.
  2:{ injection H as <- <-. apply (Hend []); try done; by constructor. }
  apply bind_sync_any in H
    as [(wB & iB & H & (HrtB & HnowB & _ & HskB & HlogB & _) & HcB & HnB)
       |(e & iB & -> & (HrtB & HnowB & _ & HskB & HlogB & _) & HcB & HnB)].
  2:{ apply (Hend iB); try done. }
  assert (Hchanged :
            (out = Return false ∧ wz = wB) ∨
            (res_tags ← _run_command ["git"; "tag"; "-l"; skill_name +:+ "/v*"];
             _ ← stage_copy skill_name source;
             _ ← _run_command ["git"; "add"; skill_name +:+ "/"];
             res_diff ← _run_command ["git"; "diff"; "--cached"; "--quiet"];
             if bool_decide (returncode res_diff = 0)
             then _ ← _update_cache_after_save skill_name; mret false
             else
               res_commit ←
                 _run_command
                   ["git"; "commit"; "--quiet"; "-m";
                    "[" +:+ skill_name +:+ "] "
                    +:+ Tags.version_tag
                          (Tags.next_ver skill_name
                             (PyStr.splitlines (PyStr.strip (stdout res_tags))))
                    +:+ ": "
                    +:+ match message with
                        | Some m =>
                            if bool_decide (m = EmptyString)
                            then default_message w0 else m
                        | None => default_message w0
                        end];
               if negb (bool_decide (returncode res_commit = 0))
               then raise (SnapshotError "Error committing changes.")
               else
                 _ ← _run_command
                       ["git"; "tag"; "-a";
                        Tags.full_tag skill_name
                          (Tags.next_ver skill_name
                             (PyStr.splitlines (PyStr.strip (stdout res_tags))));
                        "-m";
                        match message with
                        | Some m =>
                            if bool_decide (m = EmptyString)
                            then default_message w0 else m
                        | None => default_message w0
                        end];
                 _ ← _run_command
                       ["git"; "push"; "--quiet"; "origin"; DEFAULT_BRANCH];
                 _ ← _run_command
                       ["git"; "push"; "--quiet"; "origin";
                        Tags.full_tag skill_name
                          (Tags.next_ver skill_name
                             (PyStr.splitlines (PyStr.strip (stdout res_tags))))];
                 _ ← _update_cache_after_save skill_name;
                 mret true) wB = (out, wz)).
  { destruct skip_fast_check.
    - right. exact H.
    - unfold mbind at 1, M_bind at 1, _has_changes_fast in H.
      destruct (has_changes wB skill_name); simpl in H.
      + right. exact H.
      + left. by injection H as <- <-. }
  clear H. destruct Hchanged as [[-> ->]|H].
  { apply (Hend iB); try congruence. }
  apply bind_step in H
    as (rT & wT & H & (HrtT & HnowT & _ & HskT & HlogT & _) & HcT & _).
  apply bind_stage_copy_any in H
    as [(wS & H & (HrtS & HnowS & _ & HskS & HlogS & _) & HcS)
       |(e & -> & HrtS & HnowS & _ & HskS & HlogS & HcS)].
  2:{ apply (Hend (["git"; "tag"; "-l"; skill_name +:+ "/v*"] :: iB));
        try congruence.
      - rewrite HlogS, HlogT, HlogB. done.
      - intros _. by constructor. }
  apply bind_step in H
    as (rA & wA & H & (HrtA & HnowA & _ & HskA & HlogA & _) & HcA & _).
  apply bind_step in H
    as (rD & wD & H & (HrtD & HnowD & _ & HskD & HlogD & _) & HcD & _).
  assert (HlogDw : log wD
                   = (["git"; "diff"; "--cached"; "--quiet"]
                      :: ["git"; "add"; skill_name +:+ "/"]
                      :: ["git"; "tag"; "-l"; skill_name +:+ "/v*"] :: iB)
                     ++ log w0).
  { rewrite HlogD, HlogA, HlogS, HlogT, HlogB. done. }
  case_bool_decide as Hdiff.
  - unfold mbind, M_bind, mret, M_ret, _update_cache_after_save in H.
    injection H as <- <-. eapply Hend; simpl; try congruence.
    + exact HlogDw.
    + intros _. by repeat constructor.
    + intros Hb. by destruct (Hb false).
  - apply bind_step in H
      as (rC & wC & H & (HrtC & HnowC & _ & HskC & HlogC & _) & HcC & _).
    case_bool_decide as Hcommit; simpl in H.
    2:{ injection H as <- <-. eapply Hend; try congruence.
        - rewrite HlogC, HlogDw. rewrite app_assoc. reflexivity.
        - intros _. by repeat constructor. }
    apply bind_step in H
      as (r1 & wa & H & (Hrta & Hnowa & _ & Hska & Hloga & _) & Hca & _).
    apply bind_step in H
      as (r2 & wb & H & (Hrtb & Hnowb & _ & Hskb & Hlogb & _) & Hcb & _).
    apply bind_step in H
      as (r3 & wc & H & (Hrtc & Hnowc & _ & Hskc & Hlogc & _) & Hcc & _).
    unfold mbind, M_bind, mret, M_ret, _update_cache_after_save in H.
    injection H as <- <-. eapply Hend; simpl; try congruence.
    + rewrite Hlogc, Hlogb, Hloga, HlogC, HlogDw.
      rewrite !app_assoc. reflexivity.
    + intros Hb. by destruct (Hb true).
Qed.

(** X7. However [save] ends, the skills directory is exactly as before, and
    a lock that was free at the call is free again. *)
Theorem save_keeps_live_trees (w w1 : world) (skill_name : string)
    (message : option string) (sync_remote skip_fast_check : bool)
    (out : outcome bool) :
  save skill_name message sync_remote skip_fast_check w = (out, w1) →
  skills_dir w1 = skills_dir w ∧ (lock_file w = None → lock_file w1 = None).
Proof.
  intros H. apply save_any_outcome in H as (_ & _ & Hs & Hl & _). done.
Qed.

Lemma save_keeps_live_trees_witness :
  skills_dir w_saved = skills_dir w_first_save ∧
  (lock_file w_first_save = None → lock_file w_saved = None).
Proof.
  apply (save_keeps_live_trees w_first_save w_saved "alpha" (Some "msg")
           true false (Return true)).
  vm_compute. reflexivity.
Defined.

(** X8. A [save] that does not return true has issued neither [git tag -a]
    nor [git push]: a failed commit, a failed copy or an unchanged tree
    publishes nothing. *)
Theorem save_publishes_only_on_success (w w1 : world) (skill_name : string)
    (message : option string) (sync_remote skip_fast_check : bool)
    (out : outcome bool) :
  save skill_name message sync_remote skip_fast_check w = (out, w1) →
  out ≠ Return true →
  ∃ issued, log w1 = issued ++ log w ∧
            Forall (λ cmd, publishes cmd = false) issued.
Proof.
  intros H Hout.
  apply save_any_outcome in H as (_ & _ & _ & _ & issued & Hlog & Hp & _).
  exists issued. auto.
Qed.

Lemma save_publishes_only_on_success_witness :
  ∃ issued,
    log (snd (save "alpha" None false true w_commit_fails))
    = issued ++ log w_commit_fails ∧
    Forall (λ cmd, publishes cmd = false) issued.
Proof.
  apply (save_publishes_only_on_success w_commit_fails _ "alpha" None false true
           (Raise (SnapshotError "Error committing changes.")));
    [vm_compute; reflexivity | discriminate].
Defined.

(** X9. A [save] that ends in an exception or an exit leaves every cache file
    as it was; in particular a failed commit does not refresh the cache, so
    the tree is still seen as changed. *)
Theorem failed_save_keeps_cache (w w1 : world) (skill_name : string)
    (message : option string) (sync_remote skip_fast_check : bool)
    (out : outcome bool) :
  save skill_name message sync_remote skip_fast_check w = (out, w1) →
  (∀ b, out ≠ Return b) →
  cache w1 = cache w.
Proof.
  intros H Hout.
  apply save_any_outcome in H as (_ & _ & _ & _ & issued & _ & _ & Hc). auto.
Qed.

Lemma failed_save_keeps_cache_witness :
  cache (snd (save "alpha" None false true w_commit_fails))
  = cache w_commit_fails.
Proof.
  apply (failed_save_keeps_cache w_commit_fails _ "alpha" None false true
           (Raise (SnapshotError "Error committing changes.")));
    [vm_compute; reflexivity | discriminate].
Defined.

Lemma list_snapshots_lock (o : option string) (w w' : world) (out : outcome unit) :
  list_snapshots o w = (out, w') → lock_file w' = lock_file w.
Proof.
  unfold list_snapshots, mbind, M_bind, get, sys_exit, _run_command. simpl.
  destruct (bool_decide _); simpl; by intros [= <- <-].
Qed.

(** X10. [restore], [delete_snapshot] and [backup_all] called with the lock
    free end with the lock free, whether they return, raise or exit. *)
Theorem lock_released_on_every_exit (w : world) :
  lock_file w = None →
  (∀ skill_name version out w',
     restore skill_name version w = (out, w') → lock_file w' = None) ∧
  (∀ skill_name version out w',
     delete_snapshot skill_name version w = (out, w') → lock_file w' = None) ∧
  (∀ message out w', backup_all message w = (out, w') → lock_file w' = None).
Proof.
  intros Hfree.
  assert (Hacq : ∃ l, _acquire_lock w = (Return true, set_lock_file (Some l) w)).
  { unfold _acquire_lock. rewrite Hfree. by eexists. }
  destruct Hacq as [l Hacq]. split; [|split].
  - intros skill_name version out w'. unfold restore.
    case_bool_decide as Hself; [by intros [= <- <-]|].
    destruct version as [v|];
      [|intros Hl%list_snapshots_lock; congruence].
    case_bool_decide as Hv; [intros Hl%list_snapshots_lock; congruence|].
    unfold mbind at 1, M_bind at 1. rewrite Hacq. simpl.
    by intros (? & _ & ? & _)%try_finally_release.
  - intros skill_name version out w'. unfold delete_snapshot.
    case_bool_decide as Hself; [by intros [= <- <-]|].
    unfold mbind at 1, M_bind at 1. rewrite Hacq. simpl.
    by intros (? & _ & ? & _)%try_finally_release.
  - intros message out w'. unfold backup_all.
    unfold mbind at 1, M_bind at 1. rewrite Hacq. simpl.
    by intros (? & _ & ? & _)%try_finally_release.
Qed.

Lemma lock_released_on_every_exit_witness :
  lock_file (snd (delete_snapshot "alpha" "v1" w_first_save)) = None.
Proof.
  apply (proj1 (proj2 (lock_released_on_every_exit w_first_save eq_refl))
           "alpha" "v1" (fst (delete_snapshot "alpha" "v1" w_first_save))).
  vm_compute. reflexivity.
Defined.

End save_any.

Section maintenance.
Import FS Cache Engine Samples.

Lemma fresh_fingerprints_ext (w1 w2 : world) (s : string) :
  rt w1 = rt w2 → skills_dir w1 = skills_dir w2 →
  fresh_fingerprints w1 s = fresh_fingerprints w2 s.
Proof.
  unfold fresh_fingerprints, skill_files, skill_path. by intros -> ->.
Qed.

(** The loop of [rebuild_cache]: it returns, touches the cache only, and
    leaves under each listed tree the fingerprints of its live files. *)
Lemma rebuild_each_spec (skills : list string) (w : world) :
  ∃ w', rebuild_each skills w = (Return tt, w') ∧
        rt w' = rt w ∧ now w' = now w ∧ skills_dir w' = skills_dir w ∧
        repo w' = repo w ∧ lock_file w' = lock_file w ∧ log w' = log w ∧
        ∀ s, cache w' !! s
             = if bool_decide (s ∈ skills)
               then Some (Json (Some CACHE_VERSION) (Some (now w))
                            (Some (fresh_fingerprints w s)))
               else cache w !! s.
Proof.
  revert w. induction skills as [|skill rest IH]; intros w.
  - exists w. repeat split.
  - simpl. unfold mbind, M_bind, _update_cache_after_save. simpl.
    set (w1 := set_cache _ w).
    destruct (IH w1) as (w' & Hrun & Hrt & Hnow & Hsk & Hrepo & Hlock & Hlog & Hc).
    exists w'. split; [done|]. repeat split; try done.
    intros s. rewrite Hc.
    rewrite (fresh_fingerprints_ext w1 w s) by done.
    change (now w1) with (now w).
    destruct (decide (s ∈ rest)) as [Hin|Hnin].
    + rewrite !bool_decide_eq_true_2; [done| |done]. by apply elem_of_cons; right.
    + rewrite (bool_decide_eq_false_2 _ Hnin).
      destruct (decide (s = skill)) as [->|Hne].
      * rewrite bool_decide_eq_true_2 by (apply elem_of_cons; by left).
        unfold w1. simpl.
        unfold Cache._update_cache_after_save, _save_cache.
        by rewrite lookup_insert_eq.
      * rewrite bool_decide_eq_false_2
          by (intros [?|?]%elem_of_cons; done).
        unfold w1. simpl.
        unfold Cache._update_cache_after_save, _save_cache.
        by rewrite lookup_insert_ne.
Qed.

Lemma fresh_cache_no_change (w' w : world) (s : string) (t : Z) :
  rt w' = rt w → skills_dir w' = skills_dir w →
  is_Some (repo w' !! s) →
  cache w' !! s
  = Some (Json (Some CACHE_VERSION) (Some t) (Some (fresh_fingerprints w s))) →
  has_changes w' s = false.
Proof.
  intros Hrt Hsk [n Hn] Hc.
  rewrite (has_changes_ext w'
             (set_cache (Cache._update_cache_after_save (sha256 (rt w)) t s
                           (skill_files w s) (cache w')) w')).
  - by eapply (has_changes_after_update _ w s n t (cache w')).
  - done.
  - done.
  - done.
  - simpl. unfold Cache._update_cache_after_save, _save_cache.
    symmetry. by apply insert_id.
Qed.

(** X11. After a [rebuild_cache] that returns, the fast check reports no
    change for every tree it visited that has a snapshot directory, whatever
    the live tree and the snapshot hold; the trees, the repository and the
    lock are as before. *)
Theorem rebuild_cache_hides_changes (w w' : world) (skill_name : option string)
    (s : string) :
  rebuild_cache skill_name w = (Return tt, w') →
  (skill_name = Some s ∧ s ≠ EmptyString) ∨
  ((skill_name = None ∨ skill_name = Some EmptyString) ∧
   ∃ d, skills_dir w = Some d ∧ s ∈ scan_skills d) →
  is_Some (repo w !! s) →
  has_changes w' s = false ∧
  skills_dir w' = skills_dir w ∧ repo w' = repo w ∧
  lock_file w' = lock_file w ∧ log w' = log w.
Proof.
  intros Hrun Hvisit Hsnap.
  assert (Hall : rebuild_all w = (Return tt, w') →
                 (∃ d, skills_dir w = Some d ∧ s ∈ scan_skills d) →
                 has_changes w' s = false ∧
                 skills_dir w' = skills_dir w ∧ repo w' = repo w ∧
                 lock_file w' = lock_file w ∧ log w' = log w).
  { unfold rebuild_all, mbind, M_bind, get. simpl.
    intros Hr (d & Hd & Hin). rewrite Hd in Hr.
    destruct (rebuild_each_spec (scan_skills d) w)
      as (w2 & Hrun2 & Hrt & Hnow & Hsk & Hrepo & Hlock & Hlog & Hc).
    rewrite Hrun2 in Hr. injection Hr as <-.
    split; [|done].
    apply (fresh_cache_no_change w2 w s (now w)); [done|done| |].
    - by rewrite Hrepo.
    - by rewrite Hc, bool_decide_eq_true_2. }
  destruct Hvisit as [[-> Hne]|[[->| ->] Hin]].
  - unfold rebuild_cache in Hrun. rewrite bool_decide_eq_false_2 in Hrun by done.
    unfold mbind, M_bind, get in Hrun. simpl in Hrun.
    destruct (skill_path w s); [|done].
    unfold _update_cache_after_save in Hrun. injection Hrun as <-.
    split; [|done].
    apply (fresh_cache_no_change _ w s (now w)); [done|done|done|].
    simpl. unfold Cache._update_cache_after_save, _save_cache.
    by rewrite lookup_insert_eq.
  - by apply Hall.
  - apply Hall; [|done]. unfold rebuild_cache in Hrun.
    by rewrite bool_decide_eq_true_2 in Hrun.
Qed.

Lemma rebuild_cache_hides_changes_witness :
  has_changes (snd (rebuild_cache None w_saved)) "alpha" = false.
Proof.
  apply (rebuild_cache_hides_changes w_saved _ None "alpha").
  - vm_compute. reflexivity.
  - right. split; [by left|]. eexists. split; [vm_compute; reflexivity|].
    vm_compute. apply elem_of_cons. by left.
  - vm_compute. by eexists.
Defined.

(** X12. A [save] that follows [rebuild_cache] of a tree with a snapshot
    directory creates nothing: it returns false without a commit or a tag,
    although nothing relates the live tree to what was last snapshotted. *)
Theorem save_after_rebuild_creates_nothing (w w1 : world) (skill_name : string)
    (message : option string) :
  skill_name ≠ EmptyString → skill_name ≠ SELF_SKILL_NAME →
  lock_file w = None →
  is_Some (repo w !! ".git") → is_Some (repo w !! skill_name) →
  rebuild_cache (Some skill_name) w = (Return tt, w1) →
  ∃ w2, save skill_name message false false w1 = (Return false, w2) ∧
        repo w2 = repo w ∧ skills_dir w2 = skills_dir w ∧
        ∃ issued, log w2 = issued ++ log w ∧
                  Forall (λ cmd, creates_snapshot cmd = false) issued.
Proof.
  intros Hne Hself Hlock Hgit Hsnap Hrun.
  assert (Hw1 : w1 = set_cache (Cache._update_cache_after_save (sha256 (rt w))
                                  (now w) skill_name (skill_files w skill_name)
                                  (cache w)) w ∧
                is_Some (skill_path w skill_name)).
  { unfold rebuild_cache in Hrun. rewrite bool_decide_eq_false_2 in Hrun by done.
    unfold mbind, M_bind, get in Hrun. simpl in Hrun.
    destruct (skill_path w skill_name) eqn:E; [|done].
    unfold _update_cache_after_save in Hrun. by injection Hrun as <-. }
  destruct Hw1 as [-> Hpath].
  destruct Hsnap as [n Hn].
  destruct (save_unchanged_tree
              (set_cache (Cache._update_cache_after_save (sha256 (rt w))
                            (now w) skill_name (skill_files w skill_name)
                            (cache w)) w)
              skill_name message false)
    as (w2 & Hsave & _ & Hrepo & Hsk & _ & issued & Hlog & Hiss);
    try done.
  - by eapply (has_changes_after_update _ w skill_name n (now w) (cache w)).
  - exists w2. split; [done|]. repeat split; try done. by exists issued.
Qed.

Lemma save_after_rebuild_creates_nothing_witness :
  ∃ w2, save "alpha" None false false
          (snd (rebuild_cache (Some "alpha") (set_cache ∅ w_saved)))
        = (Return false, w2) ∧
        repo w2 = repo (set_cache ∅ w_saved) ∧
        skills_dir w2 = skills_dir (set_cache ∅ w_saved) ∧
        ∃ issued, log w2 = issued ++ log (set_cache ∅ w_saved) ∧
                  Forall (λ cmd, creates_snapshot cmd = false) issued.
Proof.
  apply (save_after_rebuild_creates_nothing (set_cache ∅ w_saved)).
  - done.
  - done.
  - vm_compute. reflexivity.
  - vm_compute. by eexists.
  - vm_compute. by eexists.
  - vm_compute. reflexivity.
Defined.

(** X13. After [clear_cache] the fast check reports a change for every tree
    whose cache file was removed, and clearing one tree leaves the cache
    files of the others in place. *)
Theorem clear_cache_forces_change (w : world) (skill_name : option string)
    (s : string) :
  skill_name = Some s ∨ skill_name = None ∨ skill_name = Some EmptyString →
  fst (clear_cache skill_name w) = Return tt ∧
  has_changes (snd (clear_cache skill_name w)) s = true ∧
  ∀ other, skill_name = Some s → s ≠ EmptyString → other ≠ s →
           cache (snd (clear_cache skill_name w)) !! other = cache w !! other.
Proof.
  assert (Hnone : ∀ w0 : world, cache w0 !! s = None → has_changes w0 s = true).
  { intros w0 Hc. unfold has_changes, Cache._has_changes_fast, _load_cache.
    rewrite Hc. by destruct (repo w0 !! s). }
  intros [->|[->| ->]]; unfold clear_cache; simpl.
  - case_bool_decide as Hs; simpl.
    + split; [done|]. split; [by apply Hnone|]. by intros.
    + split; [done|]. split.
      * apply Hnone. simpl. by rewrite lookup_delete_eq.
      * intros other _ _ Hother. by rewrite lookup_delete_ne.
  - split; [done|]. split; [by apply Hnone|]. by intros.
  - split; [done|]. split; [by apply Hnone|]. by intros other [= <-] ?.
Qed.

Lemma clear_cache_forces_change_witness :
  has_changes (snd (clear_cache (Some "alpha") w_saved)) "alpha" = true.
Proof.
  apply (clear_cache_forces_change w_saved (Some "alpha") "alpha"). by left.
Defined.

End maintenance.

Section deleting.
Import FS Cache Engine Samples.

(** X14. Whatever [delete_snapshot] is given and however it ends, every tag
    it deletes, locally or on the remote, starts with the name of the tree
    and a slash; the live trees, the working tree of the repository and the
    cache are as before; and when it returns, the local and the remote
    deletion of one and the same tag are the last two commands issued. *)
Theorem delete_stays_in_namespace (w w' : world) (skill_name version : string)
    (out : outcome unit) :
  delete_snapshot skill_name version w = (out, w') →
  skills_dir w' = skills_dir w ∧ repo w' = repo w ∧ cache w' = cache w ∧
  ∃ issued,
    log w' = issued ++ log w ∧
    Forall (λ cmd, ∀ t, deleted_tag cmd = Some t →
                        PyStr.startswith t (skill_name +:+ "/") = true) issued ∧
    (out = Return tt →
     ∃ t rest, issued = ["git"; "push"; "origin"; "--delete"; t]
                        :: ["git"; "tag"; "-d"; t] :: rest).
Proof.
  unfold delete_snapshot. case_bool_decide as Hself.
  { intros [= <- <-]. repeat split. exists []. repeat split; [constructor|done]. }
  unfold mbind at 1, M_bind at 1.
  destruct (acquire_lock_cases w) as [Hacq|[l Hacq]]; rewrite Hacq; simpl.
  { intros [= <- <-]. repeat split. exists []. repeat split; [constructor|done]. }
  intros (w1 & Hbody & _ & _ & _ & Hsk & Hrepo & Hcache & Hlog)%try_finally_release.
  rewrite Hsk, Hrepo, Hcache, Hlog. clear Hsk Hrepo Hcache Hlog w'.
  set (w0 := set_lock_file (Some l) w) in *.
  assert (Hfull : ∀ (full : string) (wa wb : world) (o : outcome unit),
            delete_full_tag full wa = (o, wb) →
            skills_dir wb = skills_dir wa ∧ repo wb = repo wa ∧
            cache wb = cache wa ∧
            ∃ issued, log wb = issued ++ log wa ∧
              Forall (λ cmd, ∀ t, deleted_tag cmd = Some t → t = full) issued ∧
              (o = Return tt →
               ∃ rest, issued = ["git"; "push"; "origin"; "--delete"; full]
                                :: ["git"; "tag"; "-d"; full] :: rest)).
  { intros full wa wb o. unfold delete_full_tag.
    intros (r1 & wa1 & Hk & Hev1 & Hc1 & Hr1)%bind_step.
    destruct Hev1 as (_ & _ & _ & Hs1 & Hl1 & _). specialize (Hr1 eq_refl).
    destruct (negb _).
    { injection Hk as <- <-. rewrite Hs1, Hr1, Hc1. repeat split.
      eexists. split; [exact Hl1|]. split; [|done].
      repeat constructor. by intros t [=]. }
    apply bind_step in Hk as (r2 & wa2 & Hk & Hev2 & Hc2 & Hr2).
    destruct Hev2 as (_ & _ & _ & Hs2 & Hl2 & _). specialize (Hr2 eq_refl).
    destruct (negb _).
    { injection Hk as <- <-. rewrite Hs2, Hr2, Hc2, Hs1, Hr1, Hc1. repeat split.
      eexists. split; [rewrite Hl2, Hl1; by rewrite app_assoc|].
      split; [|done]. repeat constructor; intros t [=]; done. }
    apply bind_step in Hk as (r3 & wa3 & Hk & Hev3 & Hc3 & Hr3).
    destruct Hev3 as (_ & _ & _ & Hs3 & Hl3 & _). specialize (Hr3 eq_refl).
    injection Hk as <- <-.
    rewrite Hs3, Hr3, Hc3, Hs2, Hr2, Hc2, Hs1, Hr1, Hc1. repeat split.
    eexists. split; [rewrite Hl3, Hl2, Hl1; by rewrite !app_assoc|].
    split; [|by eexists].
    repeat constructor; intros t [=]; done. }
  unfold _delete_snapshot_impl, check_network in Hbody.
  unfold mbind at 1, M_bind at 1 in Hbody.
  unfold mbind at 1, M_bind at 1 in Hbody.
  simpl in Hbody.
  set (wn := set_log _ _) in Hbody.
  assert (Hwn : skills_dir wn = skills_dir w ∧ repo wn = repo w ∧
                cache wn = cache w ∧
                log wn = [["gh"; "api"; "user"; "-q"; ".login"]] ++ log w) by done.
  destruct Hwn as (Hs & Hr & Hc & Hl).
  unfold mret, M_ret in Hbody.
  destruct (negb _).
  { injection Hbody as <- <-. rewrite Hs, Hr, Hc. repeat split.
    eexists. split; [exact Hl|]. split; [|done].
    repeat constructor. by intros t [=]. }
  assert (Hend : ∀ full,
            PyStr.startswith full (skill_name +:+ "/") = true →
            delete_full_tag full wn = (out, w1) →
            skills_dir w1 = skills_dir w ∧ repo w1 = repo w ∧ cache w1 = cache w ∧
            ∃ issued,
              log w1 = issued ++ log w ∧
              Forall (λ cmd, ∀ t, deleted_tag cmd = Some t →
                         PyStr.startswith t (skill_name +:+ "/") = true) issued ∧
              (out = Return tt →
               ∃ t rest, issued = ["git"; "push"; "origin"; "--delete"; t]
                                  :: ["git"; "tag"; "-d"; t] :: rest)).
  { intros full Hpre (Hs' & Hr' & Hc' & issued & Hl' & Hall & Hret)%Hfull.
    rewrite Hs', Hr', Hc', Hs, Hr, Hc. repeat split.
    exists (issued ++ [["gh"; "api"; "user"; "-q"; ".login"]]).
    split; [rewrite Hl', Hl; by rewrite app_assoc|]. split.
    - apply Forall_app. split.
      + eapply Forall_impl; [exact Hall|]. intros cmd Hcmd t Ht.
        by rewrite (Hcmd t Ht).
      + repeat constructor. by intros t [=].
    - intros Ho. destruct (Hret Ho) as [rest ->]. by eexists _, _. }
  destruct (PyStr.startswith version (skill_name +:+ "/")) eqn:Hpre.
  { by apply (Hend version). }
  destruct (PyStr.contains "/" version).
  { injection Hbody as <- <-. rewrite Hs, Hr, Hc. repeat split.
    eexists. split; [exact Hl|]. split; [|done].
    repeat constructor. by intros t [=]. }
  apply (Hend (skill_name +:+ "/" +:+ version)); [|done].
  rewrite <- str_app_assoc. apply startswith_app.
Qed.

Lemma delete_stays_in_namespace_witness :
  skills_dir (snd (delete_snapshot "alpha" "v1" w_saved)) = skills_dir w_saved.
Proof.
  apply (delete_stays_in_namespace w_saved _ "alpha" "v1"
           (fst (delete_snapshot "alpha" "v1" w_saved))).
  vm_compute. reflexivity.
Defined.

End deleting.

Section creating.
Import FS Cache Engine Samples.

Lemma run_step {B : Type} (cmd : list string) (k : response → M B) (w : world) :
  touches_worktree cmd = false →
  (_run_command cmd ≫= k) w
  = k (respond (rt w) (log w) cmd (repo w)) (set_log (cmd :: log w) w).
Proof.
  intros H. unfold mbind, M_bind, _run_command. rewrite H. by destruct w.
Qed.



(** X16. A [save] with the fast check skipped and no sync, of an existing
    tree into an initialised repository, returns true as soon as the copy
    succeeds, the diff finds staged changes and the commit succeeds, whatever
    [git tag -a] and the two pushes answer; the lock is free afterwards and
    the fast check then reports no change, so a later plain [save] does not
    push again. *)
Theorem save_succeeds_whatever_push_answers (w : world) (skill_name : string)
    (message : option string) (es : list (string * node)) :
  skill_name ≠ SELF_SKILL_NAME → lock_file w = None →
  skill_path w skill_name = Some (Dir es) →
  is_Some (repo w !! ".git") →
  (∀ f, repo w !! skill_name ≠ Some (File f)) →
  fault (rt w) (prune (Dir es)) = None →
  (∀ history tree,
     returncode (respond (rt w) history
                   ["git"; "diff"; "--cached"; "--quiet"] tree) ≠ 0) →
  (∀ history tree m,
     returncode (respond (rt w) history
                   ["git"; "commit"; "--quiet"; "-m"; m] tree) = 0) →
  ∃ w1, save skill_name message false true w = (Return true, w1) ∧
        lock_file w1 = None ∧ skills_dir w1 = skills_dir w ∧
        repo w1 !! skill_name = Some (prune (Dir es)) ∧
        has_changes w1 skill_name = false.
Proof.
  intros Hself Hlock Hsrc Hgit Hdir Hfault Hdiff Hcommit.
  unfold save. rewrite bool_decide_eq_false_2 by done.
  unfold mbind at 1, M_bind at 1, _acquire_lock. rewrite Hlock. simpl.
  set (w0 := set_lock_file _ w).
  assert (Himpl : ∃ w2, _save_impl skill_name message false true w0
                        = (Return true, w2) ∧
                        rt w2 = rt w ∧ skills_dir w2 = skills_dir w ∧
                        repo w2 !! skill_name = Some (prune (Dir es)) ∧
                        cache w2
                        = Cache._update_cache_after_save (sha256 (rt w)) (now w)
                            skill_name (skill_files w skill_name) (cache w)).
  { unfold _save_impl. unfold mbind at 1, M_bind at 1, get.
    change (skill_path w0 skill_name) with (skill_path w skill_name).
    rewrite Hsrc.
    change (repo w0) with (repo w). rewrite (bool_decide_eq_true_2 _ Hgit).
    cbn [negb].
    unfold mbind at 1, M_bind at 1, mret at 1, M_ret at 1.
    unfold mbind at 1, M_bind at 1, mret at 1, M_ret at 1. cbn [negb].
    rewrite run_step by done. cbv zeta.
    unfold mbind at 1, M_bind at 1, stage_copy. cbn [repo set_log rt w0 set_lock_file].
    assert (Hclean : ∃ r, match repo w !! skill_name with
                          | Some _ => rmtree skill_name (repo w)
                          | None => Done (repo w)
                          end = Done r).
    { unfold rmtree. destruct (repo w !! skill_name) as [[f|es']|] eqn:E.
      - by destruct (Hdir f).
      - by eexists.
      - by eexists. }
    destruct Hclean as [r ->].
    unfold copytree. rewrite Hfault.
    rewrite run_step by done. rewrite run_step by done.
    rewrite bool_decide_eq_false_2 by apply Hdiff.
    rewrite run_step by done.
    rewrite bool_decide_eq_true_2 by apply Hcommit. cbn [negb].
    rewrite run_step by done. rewrite run_step by done.
    rewrite run_step by done.
    unfold mbind, M_bind, _update_cache_after_save, mret, M_ret.
    eexists. split; [reflexivity|]. cbn.
    split; [done|]. split; [done|]. split; [by rewrite lookup_insert_eq|done]. }
  destruct Himpl as (w2 & Himpl & Hrt & Hsk & Hrepo & Hcache).
  unfold try_finally. rewrite Himpl. unfold _release_lock.
  destruct (lock_file w2) eqn:El; eexists; (split; [reflexivity|]);
    (split; [done|]); (split; [done|]); (split; [done|]);
    by eapply (has_changes_after_update _ w skill_name _ (now w) (cache w)).
Qed.

Lemma save_succeeds_whatever_push_answers_witness :
  ∃ w1, save "alpha" None false true w_push_fails = (Return true, w1) ∧
        lock_file w1 = None ∧ skills_dir w1 = skills_dir w_push_fails ∧
        repo w1 !! "alpha" = Some (prune alpha_tree) ∧
        has_changes w1 "alpha" = false.
Proof.
  apply (save_succeeds_whatever_push_answers w_push_fails "alpha" None
           [("SKILL.md", skill_md "v1" 100)]).
  - done.
  - reflexivity.
  - vm_compute. reflexivity.
  - vm_compute. by eexists.
  - intros f. vm_compute. discriminate.
  - reflexivity.
  - intros history tree. vm_compute. discriminate.
  - intros history tree m. reflexivity.
Defined.

End creating.

Section restoring.
Import FS Cache Engine Samples.







End restoring.

Section coverage.
Import FS Cache Engine Samples.

Lemma filter_none {A : Type} (P : A → Prop) `{∀ x, Decision (P x)} (l : list A) :
  (∀ x, x ∈ l → ¬ P x) → filter P l = [].
Proof.
  induction l as [|x l IH]; [done|]. intros Hl.
  rewrite filter_cons. destruct (decide (P x)) as [Hp|_].
  - destruct (Hl x); [apply elem_of_cons; by left|done].
  - apply IH. intros y Hy. apply Hl. apply elem_of_cons. by right.
Qed.

Lemma ignored_part_drops_all (path_parts : list string) (n : option node)
    (part : string) :
  part ∈ path_parts → part ∈ ignore_names → _get_skill_files path_parts n = [].
Proof.
  intros Hin Hign. destruct n as [n|]; [|done]. unfold _get_skill_files.
  apply filter_none. intros pf _ Hkeep. unfold keep_file in Hkeep.
  apply andb_prop in Hkeep as [Hex _]. apply negb_true_iff in Hex.
  assert (Htrue : existsb (λ part, bool_decide (part ∈ ignore_names))
                    (path_parts ++ fst pf) = true); [|congruence].
  apply existsb_exists. exists part. split.
  - apply in_or_app. left. by apply list_elem_of_In.
  - by apply bool_decide_eq_true_2.
Qed.

(** X18. When a part of the path of the tree (the skills directory's own
    parts or the tree's name) is one of the ignored names, no file is
    fingerprinted: once the cache has been written, the fast check reports no
    change whatever the live tree holds afterwards. *)
Theorem ignored_ancestor_blinds_fast_check (w0 w : world) (skill_name part : string) :
  part ∈ skills_dir_parts (rt w0) ++ [skill_name] →
  part ∈ ignore_names →
  rt w = rt w0 →
  is_Some (repo w !! skill_name) →
  cache w = cache (snd (Engine._update_cache_after_save skill_name w0)) →
  has_changes w skill_name = false.
Proof.
  intros Hin Hign Hrt [n Hn] Hcache.
  unfold has_changes, Cache._has_changes_fast. rewrite Hn, Hcache.
  unfold Engine._update_cache_after_save. simpl.
  unfold Cache._update_cache_after_save, _save_cache, _load_cache.
  rewrite lookup_insert_eq, bool_decide_eq_true_2 by done. simpl.
  unfold skill_files. rewrite Hrt.
  rewrite !(ignored_part_drops_all _ _ part) by done.
  reflexivity.
Qed.

Lemma ignored_ancestor_blinds_fast_check_witness :
  has_changes
    (set_cache
       (cache (snd (Engine._update_cache_after_save "alpha" (w_venv alpha_tree))))
       (w_venv beta_tree)) "alpha" = false.
Proof.
  apply (ignored_ancestor_blinds_fast_check (w_venv alpha_tree) _ "alpha" ".venv").
  - apply elem_of_cons. right. apply elem_of_cons. by left.
  - apply elem_of_cons. right. apply elem_of_cons. right.
    apply elem_of_cons. right. apply elem_of_cons. by left.
  - reflexivity.
  - vm_compute. by eexists.
  - reflexivity.
Defined.













End coverage.

Section scanning.
Import FS Cache Engine Samples.



End scanning.

Section instances_cache.
Import FS Cache Engine Samples.


End instances_cache.
